(** * Miro-API: the placement engine of [Card-Creation.py]

    A shallow embedding of the collision detector ([is_collision]), the
    spiral position search ([find_free_position]), the placement part of
    [create_miro_element], the label-driven height adjustment
    ([adjust_card_height]) and the colour validator ([validate_hex_color]).

    Conventions of the embedding:
    - Python [int] values are [Z].  The collision detector is embedded
      twice.  [F64.is_collision] is the function as Python and NumPy run
      it, in binary64 with every operation rounded to nearest; what is
      stated of the detector itself is stated of it.  [is_collision] is
      the same text over exact rationals [Q], an [int] entering by
      [inject_Z]; the search is run with it.  The general theorems about
      the search read the detector only through the loop condition, and
      the scenarios they are evaluated on have integer geometry, where
      the two detectors agree ([scenario_probes_agree_in_binary64]).
    - The pandas DataFrame [existing_items] is the list of its rows, each
      row keeping the four columns the engine reads, all four numeric.
      The empty list is a frame that has these columns and no row.
    - Exceptions are the [Raise] branch of [result]; text written with
      [print] is collected in a list of lines.
    - The network is a parameter: [requests.post] and [requests.get]
      followed by [response.json()] are functions from the request to
      the response, and the requests sent are listed in order.  Python
      dicts, lists and scalars are values of [json].

    Also covered: [build_payload], [send_request], the request part of
    [create_miro_element] (lines 122-134), [validate_sticky_note_color]
    and [get_items]. *)

From Stdlib Require Import ZArith QArith Qfield Qabs Lqa List String Ascii Bool Lia.
From Stdlib Require Import DecimalString SpecFloat.
Import ListNotations.

Local Open Scope Z_scope.

(* ------------------------------------------------------------------ *)
(** ** Data model *)

(** One row of the DataFrame built by [get_items]: centre and size. *)
Record Item : Type := mkItem
  { item_x : Q; item_y : Q; item_width : Q; item_height : Q }.

Definition DataFrame : Type := list Item.

(** [DataFrame.empty] *)
Definition df_empty (df : DataFrame) : bool :=
  match df with [] => true | _ :: _ => false end.

(** Python exceptions the modelled code can raise. *)
Inductive exn : Type := ZeroDivisionError | IndexError.

Inductive result (A : Type) : Type :=
| Ok (a : A)
| Raise (e : exn).
Arguments Ok {A} a.
Arguments Raise {A} e.

Definition bind {A B : Type} (r : result A) (k : A -> result B) : result B :=
  match r with
  | Ok a => k a
  | Raise e => Raise e
  end.

Notation "x <- r ;; k" := (bind r (fun x => k))
  (at level 61, r at next level, right associativity).
Notation "' p <- r ;; k" := (bind r (fun p => k))
  (at level 61, p pattern, r at next level, right associativity).

(** [a % b] on Python integers: result has the sign of the divisor. *)
Definition py_mod (a b : Z) : result Z :=
  if b =? 0 then Raise ZeroDivisionError else Ok (a mod b).

(** [l[i]] on a Python list, negative indices counting from the end. *)
Definition py_getitem {A : Type} (l : list A) (i : Z) : result A :=
  let j := if i <? 0 then i + Z.of_nat (List.length l) else i in
  if j <? 0 then Raise IndexError
  else match nth_error l (Z.to_nat j) with
       | Some a => Ok a
       | None => Raise IndexError
       end.

(* ------------------------------------------------------------------ *)
(** ** Collision detector *)

Module Collision.
Local Open Scope Q_scope.

(** [is_collision(new_x, new_y, new_width, new_height, existing_items)]
    over exact rationals.  The vectorised comparisons become a per-row
    test and [np.any] the disjunction over the rows. *)
Definition is_collision (new_x new_y new_width new_height : Q)
    (existing_items : DataFrame) : bool :=
  let clear_x := new_width * (1 # 10) in
  let clear_y := new_height * (1 # 10) in
  let expanded_new_x := new_x - new_width / 2 - clear_x in
  let expanded_new_y := new_y - new_height / 2 - clear_y in
  let expanded_new_width := new_width + 2 * clear_x in
  let expanded_new_height := new_height + 2 * clear_y in
  existsb
    (fun it =>
       let existing_top_left_x := item_x it - item_width it / 2 in
       let existing_top_left_y := item_y it - item_height it / 2 in
       let collision_x :=
         Qle_bool existing_top_left_x (expanded_new_x + expanded_new_width)
         && Qle_bool expanded_new_x (existing_top_left_x + item_width it) in
       let collision_y :=
         Qle_bool existing_top_left_y (expanded_new_y + expanded_new_height)
         && Qle_bool expanded_new_y (existing_top_left_y + item_height it) in
       collision_x && collision_y)
    existing_items.

(** Reference definition, following the specification's wording, in exact
    arithmetic.  An interval is given by its two ends. *)
Definition clearance (size : Q) : Q := (1 # 10) * size.

(** Candidate: the centre moved to the corner, widened by the clearance
    on each side. *)
Definition expanded_min (centre size : Q) : Q :=
  centre - size / 2 - clearance size.
Definition expanded_max (centre size : Q) : Q :=
  centre + size / 2 + clearance size.

(** Existing rectangle: true size. *)
Definition other_min (centre size : Q) : Q := centre - size / 2.
Definition other_max (centre size : Q) : Q := centre + size / 2.

Definition axis_overlap (c cs o os : Q) : Prop :=
  expanded_min c cs <= other_max o os /\ expanded_max c cs >= other_min o os.

Definition collides_reference (x y w h : Q) (existing : DataFrame) : Prop :=
  exists e, In e existing
    /\ axis_overlap x w (item_x e) (item_width e)
    /\ axis_overlap y h (item_y e) (item_height e).

End Collision.
Export Collision.

(* ------------------------------------------------------------------ *)
(** ** The collision detector in binary64 *)

Module F64.

(** A Python [float] and an element of a float64 array: an IEEE 754
    binary64 number, with 53 bits of precision. *)
Definition f64 : Type := spec_float.

Definition add : f64 -> f64 -> f64 := SFadd 53 1024.
Definition sub : f64 -> f64 -> f64 := SFsub 53 1024.
Definition mul : f64 -> f64 -> f64 := SFmul 53 1024.
Definition div : f64 -> f64 -> f64 := SFdiv 53 1024.

(** [a <= b] and [a >= b]: false as soon as one side is NaN. *)
Definition le (a b : f64) : bool :=
  match SFcompare a b with
  | Some Lt | Some Eq => true
  | _ => false
  end.

Definition ge (a b : f64) : bool :=
  match SFcompare a b with
  | Some Gt | Some Eq => true
  | _ => false
  end.

(** [float(n)] for an [int] within the range of the doubles. *)
Definition of_Z (n : Z) : f64 := binary_normalize 53 1024 n 0 false.

(** The double that a decimal literal [n / 10] denotes: the quotient,
    rounded once. *)
Definition tenths (n : Z) : f64 := div (of_Z n) (of_Z 10).

(** The literals [0.1] and [2] of the source. *)
Definition point_one : f64 := S754_finite false 7205759403792794 (-56).
Definition two : f64 := S754_finite false 4503599627370496 (-51).

(** The exact value of a finite double. *)
Definition to_Q (a : f64) : Q :=
  match a with
  | S754_finite s m e =>
      let v := match e with
               | Zneg k => Qmake (Zpos m) (2 ^ k)%positive
               | _ => inject_Z (Zpos m * 2 ^ e)
               end in
      if s then Qopp v else v
  | _ => 0%Q
  end.

(** One row of [existing_items], as [.values] hands the columns over. *)
Record Rect : Type := mkRect
  { rect_x : f64; rect_y : f64; rect_width : f64; rect_height : f64 }.

(** [is_collision(new_x, new_y, new_width, new_height, existing_items)],
    lines 377-404, on float arguments. *)
Definition is_collision (new_x new_y new_width new_height : f64)
    (existing_items : list Rect) : bool :=
  let clear_x := mul new_width point_one in
  let clear_y := mul new_height point_one in
  let expanded_new_x := sub (sub new_x (div new_width two)) clear_x in
  let expanded_new_y := sub (sub new_y (div new_height two)) clear_y in
  let expanded_new_width := add new_width (mul two clear_x) in
  let expanded_new_height := add new_height (mul two clear_y) in
  existsb
    (fun it =>
       let existing_top_left_x := sub (rect_x it) (div (rect_width it) two) in
       let existing_top_left_y := sub (rect_y it) (div (rect_height it) two) in
       let collision_x :=
         ge (add expanded_new_x expanded_new_width) existing_top_left_x
         && le expanded_new_x (add existing_top_left_x (rect_width it)) in
       let collision_y :=
         ge (add expanded_new_y expanded_new_height) existing_top_left_y
         && le expanded_new_y (add existing_top_left_y (rect_height it)) in
       collision_x && collision_y)
    existing_items.

(** The reference definition of the specification, section 4.1, carried
    out in binary64: the clearance [0.1 * size], the expanded candidate
    given by its corner and its dimension, each existing rectangle by its
    corner and its true size. *)
Definition clearance (size : f64) : f64 := mul point_one size.

Definition expanded_min (centre size : f64) : f64 :=
  sub (sub centre (div size two)) (clearance size).

Definition expanded_max (centre size : f64) : f64 :=
  add (expanded_min centre size) (add size (mul two (clearance size))).

Definition other_min (centre size : f64) : f64 := sub centre (div size two).

Definition other_max (centre size : f64) : f64 :=
  add (other_min centre size) size.

(** [expanded_min <= other_max AND expanded_max >= other_min] *)
Definition axis_overlap (c cs o os : f64) : Prop :=
  le (expanded_min c cs) (other_max o os) = true
  /\ le (other_min o os) (expanded_max c cs) = true.

Definition collides_reference (x y w h : f64) (existing : list Rect) : Prop :=
  exists e, In e existing
    /\ axis_overlap x w (rect_x e) (rect_width e)
    /\ axis_overlap y h (rect_y e) (rect_height e).

(** The row with the exact values of a binary64 row. *)
Definition exact_item (r : Rect) : Item :=
  {| item_x := to_Q (rect_x r);
     item_y := to_Q (rect_y r);
     item_width := to_Q (rect_width r);
     item_height := to_Q (rect_height r) |}.

End F64.

(* ------------------------------------------------------------------ *)
(** ** Spiral position search *)

(** The local variables of [find_free_position] that the loop updates. *)
Record State : Type := mkState
  { pos_x : Z;
    pos_y : Z;
    step : Z;
    attempts : Z;
    directions : list (Z * Z);
    direction_index : Z;
    steps_in_current_leg : Z;
    steps_taken : Z;
    leg_increase_triggered : bool }.

Definition position (s : State) : Z * Z := (pos_x s, pos_y s).

(** [[(step, 0), (0, step), (-step, 0), (0, -step)]] *)
Definition make_directions (step : Z) : list (Z * Z) :=
  [(step, 0); (0, step); (- step, 0); (0, - step)].

(** What a run of the [while] loop leaves behind: the positions at which
    the loop condition called [is_collision], in order, and the state on
    exit (or the exception that ended the run). *)
Record Search : Type := mkSearch
  { visited : list (Z * Z);
    final : result State }.

Definition unable_message : string :=
  "Unable to find a free spot for the new item.".

(** The value of a call of [find_free_position], with what it printed and
    the positions it tested. *)
Record Outcome : Type := mkOutcome
  { probed : list (Z * Z);
    printed : list string;
    returned : result (Z * Z) }.

Section SpiralSearch.

Variables (width height : Z) (existing_items : DataFrame).
Variables (initial_step max_attempts increase_step_interval : Z).

(** State before the loop, lines 182-188. *)
Definition initial_state (x y : Z) : State :=
  {| pos_x := x;
     pos_y := y;
     step := initial_step;
     attempts := 0;
     directions := make_directions initial_step;
     direction_index := 0;
     steps_in_current_leg := 1;
     steps_taken := 0;
     leg_increase_triggered := false |}.

(** The loop condition,
    [is_collision(x, y, width, height, existing_items) and attempts < max_attempts]. *)
Definition collides_at (p : Z * Z) : bool :=
  is_collision (inject_Z (fst p)) (inject_Z (snd p))
               (inject_Z width) (inject_Z height) existing_items.

Definition loop_condition (s : State) : bool :=
  collides_at (position s) && (attempts s <? max_attempts).

(** The loop body, lines 191-205. *)
Definition loop_body (s : State) : result State :=
  ' (dx, dy) <- py_getitem (directions s) (direction_index s) ;;
  let x := pos_x s + dx in
  let y := pos_y s + dy in
  let steps_taken := steps_taken s + 1 in
  let attempts := attempts s + 1 in
  r <- py_mod attempts increase_step_interval ;;
  let grow := r =? 0 in
  let step := if grow then step s + initial_step else step s in
  let directions := if grow then make_directions step else directions s in
  if steps_taken =? steps_in_current_leg s then
    Ok {| pos_x := x;
          pos_y := y;
          step := step;
          attempts := attempts;
          directions := directions;
          direction_index := (direction_index s + 1) mod 4;
          steps_in_current_leg :=
            if leg_increase_triggered s
            then steps_in_current_leg s + 1
            else steps_in_current_leg s;
          steps_taken := 0;
          leg_increase_triggered := negb (leg_increase_triggered s) |}
  else
    Ok {| pos_x := x;
          pos_y := y;
          step := step;
          attempts := attempts;
          directions := directions;
          direction_index := direction_index s;
          steps_in_current_leg := steps_in_current_leg s;
          steps_taken := steps_taken;
          leg_increase_triggered := leg_increase_triggered s |}.

Definition log_visit (p : Z * Z) (r : Search) : Search :=
  {| visited := p :: visited r; final := final r |}.

(** The [while] loop.  [fuel] bounds the number of evaluations of the
    condition; [None] means the bound was too small. *)
Fixpoint while_loop (fuel : nat) (s : State) : option Search :=
  match fuel with
  | O => None
  | S fuel' =>
      if loop_condition s then
        match loop_body s with
        | Raise e => Some {| visited := [position s]; final := Raise e |}
        | Ok s' => option_map (log_visit (position s)) (while_loop fuel' s')
        end
      else Some {| visited := [position s]; final := Ok s |}
  end.

(** The loop of a call, run with a bound that is always enough
    ([while_loop_search] below): the condition can hold at most
    [max_attempts] times. *)
Definition search_fuel : nat := S (Z.to_nat max_attempts).

Definition search (x y : Z) : Search :=
  match while_loop search_fuel (initial_state x y) with
  | Some r => r
  | None => {| visited := []; final := Ok (initial_state x y) |}
  end.

(** Lines 207-210: the message and the returned pair. *)
Definition find_free_position_from (x y : Z) : Outcome :=
  let r := search x y in
  match final r with
  | Raise e => {| probed := visited r; printed := []; returned := Raise e |}
  | Ok s =>
      {| probed := visited r;
         printed := if attempts s =? max_attempts then [unable_message] else [];
         returned := Ok (pos_x s, pos_y s) |}
  end.

(** The state after [n] executions of the body, whatever the condition
    says: the states of an actual run are an initial segment of these. *)
Fixpoint iterate_body (n : nat) (s : State) : result State :=
  match n with
  | O => Ok s
  | S n' => s' <- iterate_body n' s ;; loop_body s'
  end.

(** The first [n + 1] positions of the spiral from [s]: the path the
    search follows for as long as the condition holds. *)
Fixpoint spiral_path (n : nat) (s : State) : list (Z * Z) :=
  position s ::
  match n with
  | O => []
  | S n' =>
      match loop_body s with
      | Ok s' => spiral_path n' s'
      | Raise _ => []
      end
  end.

End SpiralSearch.

(** [find_free_position(x, y, width, height, existing_items,
    initial_step=50, max_attempts=10000, increase_step_interval=100)] *)
Definition find_free_position (x y width height : Z)
    (existing_items : DataFrame)
    (initial_step max_attempts increase_step_interval : Z) : Outcome :=
  find_free_position_from width height existing_items
    initial_step max_attempts increase_step_interval x y.

Definition default_initial_step : Z := 50.
Definition default_max_attempts : Z := 10000.
Definition default_increase_step_interval : Z := 100.


(* ------------------------------------------------------------------ *)
(** ** Python string operations used by the helpers *)

Module PyStr.
Local Open Scope string_scope.

(** [s.startswith(p)] *)
Definition startswith (s p : string) : bool := String.prefix p s.

(** [s.replace(old, "")] for a non-empty [old]: occurrences are removed
    from left to right, without overlap.  [skip] counts the characters of
    the occurrence being removed that are still to pass. *)
Fixpoint remove_from (old : string) (skip : nat) (s : string) : string :=
  match s with
  | EmptyString => EmptyString
  | String c s' =>
      match skip with
      | S k => remove_from old k s'
      | O =>
          if String.prefix old s
          then remove_from old (Nat.pred (String.length old)) s'
          else String c (remove_from old O s')
      end
  end.

Definition remove (old s : string) : string := remove_from old O s.

(** [s.count(sub)] for a non-empty [sub]: occurrences without overlap. *)
Fixpoint count_from (sub : string) (skip : nat) (s : string) : Z :=
  match s with
  | EmptyString => 0
  | String c s' =>
      match skip with
      | S k => count_from sub k s'
      | O =>
          if String.prefix sub s
          then 1 + count_from sub (Nat.pred (String.length sub)) s'
          else count_from sub O s'
      end
  end.

Definition count (sub s : string) : Z := count_from sub O s.

(** [len(s)] *)
Definition len (s : string) : Z := Z.of_nat (String.length s).

End PyStr.

(* ------------------------------------------------------------------ *)
(** ** Placement: [create_miro_element] up to the payload *)

(** [adjust_card_height(title, height)] *)
Definition adjust_card_height (title : string) (height : Z) : Z :=
  let title_length := PyStr.len (PyStr.remove "<br>" title) in
  let extra_height :=
    if 13 <? title_length then ((title_length - 1) / 13) * 25 else 0 in
  let line_breaks_height := PyStr.count "<br>" title * 20 in
  height + extra_height + line_breaks_height.

(** The geometry [create_miro_element] hands to [build_payload]. *)
Record Geometry : Type := mkGeometry
  { geo_x : Z; geo_y : Z; geo_width : Z; geo_height : Z }.

(** What lines 115-120 of [create_miro_element] produce: the size given to
    the search ([None] when the search is not called), the positions the
    search tested, the printed lines and the geometry passed on. *)
Record Placed : Type := mkPlaced
  { search_size : option (Z * Z);
    search_probed : list (Z * Z);
    stdout : list string;
    geometry : result Geometry }.

(** [create_miro_element], lines 115-120.  [existing_items] stands for the
    value of [get_items(board_id)]; the arguments that only reach the
    payload (description, fillColor, shape) are left out. *)
Definition create_miro_element (element_type title : string)
    (width height x y : Z) (existing_items : DataFrame) : Placed :=
  let height :=
    if String.eqb element_type "card"
    then adjust_card_height title height else height in
  let width := Z.max width 256 in
  if negb (df_empty existing_items) then
    let o := find_free_position x y width height existing_items
               default_initial_step default_max_attempts
               default_increase_step_interval in
    {| search_size := Some (width, height);
       search_probed := probed o;
       stdout := printed o;
       geometry :=
         ' (x', y') <- returned o ;;
         Ok {| geo_x := x'; geo_y := y';
               geo_width := width; geo_height := height |} |}
  else
    {| search_size := None;
       search_probed := [];
       stdout := [];
       geometry := Ok {| geo_x := x; geo_y := y;
                         geo_width := width; geo_height := height |} |}.

(* ------------------------------------------------------------------ *)
(** ** Colour validation *)

Module Re.
Local Open Scope string_scope.

(** The fragment of Python's [re] syntax that [hex_pattern] uses. *)
Inductive regex : Type :=
| Bol                              (* ^ *)
| Eol                              (* $ *)
| Lit (c : ascii)                  (* a literal character *)
| Class (ranges : list (ascii * ascii))   (* [a-fA-F0-9] *)
| Opt (r : regex)                  (* r? , greedy *)
| Times (n : nat) (r : regex)      (* r{n} *)
| Alt (r1 r2 : regex)              (* r1|r2 *)
| Cat (r1 r2 : regex).

Definition in_range (c : ascii) (lohi : ascii * ascii) : bool :=
  let n := nat_of_ascii c in
  (nat_of_ascii (fst lohi) <=? n)%nat && (n <=? nat_of_ascii (snd lohi))%nat.

Definition in_class (ranges : list (ascii * ascii)) (c : ascii) : bool :=
  existsb (in_range c) ranges.

(** A position in the subject: whether it is the start, and what is left. *)
Definition cursor : Type := (bool * string)%type.

Definition newline : ascii := "010"%char.

(** Without MULTILINE, [$] holds at the end of the subject and just before
    a newline that ends the subject. *)
Definition at_eol (rest : string) : bool :=
  match rest with
  | EmptyString => true
  | String c EmptyString => Ascii.eqb c newline
  | _ => false
  end.

(** All the ways [r] can match at a cursor, in the order a backtracking
    matcher tries them. *)
Fixpoint exec (r : regex) (cur : cursor) : list cursor :=
  match r with
  | Bol => if fst cur then [cur] else []
  | Eol => if at_eol (snd cur) then [cur] else []
  | Lit c =>
      match snd cur with
      | String d rest => if Ascii.eqb c d then [(false, rest)] else []
      | EmptyString => []
      end
  | Class ranges =>
      match snd cur with
      | String d rest => if in_class ranges d then [(false, rest)] else []
      | EmptyString => []
      end
  | Opt r' => exec r' cur ++ [cur]
  | Times n r' => Nat.iter n (flat_map (exec r')) [cur]
  | Alt r1 r2 => exec r1 cur ++ exec r2 cur
  | Cat r1 r2 => flat_map (exec r2) (exec r1 cur)
  end.

(** [pattern.match(s)] as a truth value: a match anchored at the start. *)
Definition matches (r : regex) (s : string) : bool :=
  match exec r (true, s) with
  | [] => false
  | _ :: _ => true
  end.

End Re.

Definition hex_digit : Re.regex :=
  Re.Class [("a", "f"); ("A", "F"); ("0", "9")]%char.

(** [re.compile(r"^#?([a-fA-F0-9]{6}|[a-fA-F0-9]{3})$")] *)
Definition hex_pattern : Re.regex :=
  Re.Cat Re.Bol
    (Re.Cat (Re.Opt (Re.Lit "#"))
       (Re.Cat (Re.Alt (Re.Times 6 hex_digit) (Re.Times 3 hex_digit))
          Re.Eol)).

Definition default_color : string := "#00C1D4".

(** [validate_hex_color(color)] *)
Definition validate_hex_color (color : string) : string :=
  if negb (Re.matches hex_pattern color) then default_color
  else if negb (PyStr.startswith color "#") then String "#" color
  else color.

(** The shape the documentation promises: [#] and 3 or 6 hex digits. *)
Definition is_hex_digit (c : ascii) : bool :=
  Re.in_class [("a", "f"); ("A", "F"); ("0", "9")]%char c.

Fixpoint all_hex (s : string) : bool :=
  match s with
  | EmptyString => true
  | String c s' => is_hex_digit c && all_hex s'
  end.

Definition is_hex_color (s : string) : bool :=
  match s with
  | String "#" digits =>
      all_hex digits
      && ((String.length digits =? 3)%nat || (String.length digits =? 6)%nat)
  | _ => false
  end.

(* ------------------------------------------------------------------ *)
(** ** Auxiliary notions for the statements *)

(** [n] hexadecimal digits taken off the front of [s], if they are
    there: what [[a-fA-F0-9]{n}] consumes. *)
Fixpoint strip_hex (n : nat) (s : string) : option string :=
  match n with
  | O => Some s
  | S n' =>
      match s with
      | String c rest => if is_hex_digit c then strip_hex n' rest else None
      | EmptyString => None
      end
  end.

(** Six or three digits at [s], then a place where [$] holds. *)
Definition group_eol (s : string) : bool :=
  match strip_hex 6 s with
  | Some rest => Re.at_eol rest
  | None => false
  end
  || match strip_hex 3 s with
     | Some rest => Re.at_eol rest
     | None => false
     end.


(** What holds of the state at every evaluation of the loop condition:
    the direction vectors are those of the current step, and the index
    points into them. *)
Definition state_ok (s : State) : Prop :=
  directions s = make_directions (step s) /\ 0 <= direction_index s < 4.



(** Positions reached from the anchor by whole multiples of the initial
    step along each axis. *)
Definition on_lattice (initial_step x y : Z) (p : Z * Z) : Prop :=
  exists a b, p = (x + a * initial_step, y + b * initial_step).

(* ------------------------------------------------------------------ *)
(** ** Sticky-note colours *)

Definition allowed_colors : list string :=
  [ "gray"; "light_yellow"; "yellow"; "orange"; "light_green"; "green";
    "dark_green"; "cyan"; "light_pink"; "pink"; "violet"; "red";
    "light_blue"; "blue"; "dark_blue"; "black" ]%string.

(** [x in l] for a list of strings. *)
Definition str_in (x : string) (l : list string) : bool :=
  existsb (String.eqb x) l.

(** [validate_sticky_note_color(fillColor)]: the printed lines and the
    returned colour. *)
Definition validate_sticky_note_color (fillColor : string)
    : list string * string :=
  if negb (str_in fillColor allowed_colors) then
    ([("Invalid color '" ++ fillColor
        ++ "' for sticky notes. Defaulting to 'yellow'.")%string],
     "yellow"%string)
  else ([], fillColor).

(** A title without the character [<], hence without any [<br>]. *)
Fixpoint plain_title (s : string) : bool :=
  match s with
  | EmptyString => true
  | String c s' => negb (Ascii.eqb c "<") && plain_title s'
  end.

(* ------------------------------------------------------------------ *)
(** ** Payloads and requests *)

(** The Python values that the payloads are made of and that
    [response.json()] yields.  A dict is the list of its entries in
    insertion order. *)
#[warnings="-register-all"]
Inductive json : Type :=
| JNone
| JBool (b : bool)
| JInt (z : Z)
| JNum (q : Q)
| JStr (s : string)
| JList (items : list json)
| JDict (fields : list (string * json)).

(** The entry of a dict for a key, if there is one. *)
Fixpoint assoc (k : string) (fields : list (string * json)) : option json :=
  match fields with
  | [] => None
  | (k', v) :: rest => if String.eqb k k' then Some v else assoc k rest
  end.

(** Descent through nested dicts along a path of keys. *)
Fixpoint json_path (path : list string) (v : json) : option json :=
  match path with
  | [] => Some v
  | k :: path' =>
      match v with
      | JDict fields =>
          match assoc k fields with
          | Some v' => json_path path' v'
          | None => None
          end
      | _ => None
      end
  end.

Module Fmt.
Local Open Scope string_scope.

(** [str(n)] for an [int]. *)
Definition str_int (n : Z) : string := NilZero.string_of_int (Z.to_int n).

Definition upper (c : ascii) : ascii :=
  let n := nat_of_ascii c in
  if (97 <=? n)%nat && (n <=? 122)%nat then ascii_of_nat (n - 32) else c.

Definition lower (c : ascii) : ascii :=
  let n := nat_of_ascii c in
  if (65 <=? n)%nat && (n <=? 90)%nat then ascii_of_nat (n + 32) else c.

Fixpoint map_string (f : ascii -> ascii) (s : string) : string :=
  match s with
  | EmptyString => EmptyString
  | String c s' => String (f c) (map_string f s')
  end.

(** [s.capitalize()], on ASCII letters. *)
Definition capitalize (s : string) : string :=
  match s with
  | EmptyString => EmptyString
  | String c s' => String (upper c) (map_string lower s')
  end.

End Fmt.

Definition invalid_type_message : string :=
  "Invalid element type. Please choose 'card', 'sticky_note', or 'shape'.".

(** The result of [build_payload]: the printed lines and the pair
    [(url, payload)], which is [(None, None)] for an unknown type. *)
Record Built : Type := mkBuilt
  { built_stdout : list string;
    built_url : option string;
    built_payload : option json }.

(** [build_payload(element_type, board_id, title, description, fillColor,
    shape, width, height, x, y)] *)
Definition build_payload (element_type board_id title : string)
    (description : json) (fillColor shape : string)
    (width height x y : Z) : Built :=
  if String.eqb element_type "card" then
    let fillColor := validate_hex_color fillColor in
    {| built_stdout := [];
       built_url :=
         Some ("https://api.miro.com/v2/boards/" ++ board_id ++ "/cards")%string;
       built_payload := Some (JDict
         [ ("data"%string,
            JDict [("title"%string, JStr title);
                   ("description"%string, description)]);
           ("style"%string, JDict [("cardTheme"%string, JStr fillColor)]);
           ("position"%string,
            JDict [("x"%string, JInt x); ("y"%string, JInt y)]);
           ("geometry"%string,
            JDict [("height"%string, JInt height);
                   ("width"%string, JInt width);
                   ("rotation"%string, JInt 0)]) ]) |}
  else if String.eqb element_type "sticky_note" then
    let '(lines, fillColor) := validate_sticky_note_color fillColor in
    {| built_stdout := lines;
       built_url :=
         Some ("https://api.miro.com/v2/boards/" ++ board_id
               ++ "/sticky_notes")%string;
       built_payload := Some (JDict
         [ ("data"%string, JDict [("content"%string, JStr title)]);
           ("style"%string, JDict [("fillColor"%string, JStr fillColor)]);
           ("position"%string,
            JDict [("x"%string, JInt x); ("y"%string, JInt y)]);
           ("geometry"%string, JDict [("height"%string, JInt height)]) ]) |}
  else if String.eqb element_type "shape" then
    let fillColor := validate_hex_color fillColor in
    {| built_stdout := [];
       built_url :=
         Some ("https://api.miro.com/v2/boards/" ++ board_id ++ "/shapes")%string;
       built_payload := Some (JDict
         [ ("data"%string,
            JDict [("content"%string, JStr title);
                   ("shape"%string, JStr shape)]);
           ("style"%string,
            JDict [("borderColor"%string, JStr "#000000");
                   ("borderOpacity"%string, JStr "1.0");
                   ("borderStyle"%string, JStr "normal");
                   ("borderWidth"%string, JStr "2");
                   ("color"%string, JStr "#1a1a1a");
                   ("fillColor"%string, JStr fillColor);
                   ("fillOpacity"%string, JStr "1.0");
                   ("fontFamily"%string, JStr "arial");
                   ("fontSize"%string, JStr "14");
                   ("textAlign"%string, JStr "left");
                   ("textAlignVertical"%string, JStr "top")]);
           ("position"%string,
            JDict [("x"%string, JInt x); ("y"%string, JInt y)]);
           ("geometry"%string,
            JDict [("height"%string, JInt height);
                   ("width"%string, JInt width);
                   ("rotation"%string, JInt 0)]) ]) |}
  else
    {| built_stdout := [invalid_type_message];
       built_url := None;
       built_payload := None |}.

(** What [requests.post] gives back, as far as [send_request] reads it. *)
Record Response : Type := mkResponse
  { status_code : Z;
    text : string;
    response_json : json }.

(** The effects and the value of a call that may send requests: the
    printed lines, the POST requests in order, and the returned value
    ([JNone] for Python's [None]). *)
Record Sent : Type := mkSent
  { sent_stdout : list string;
    sent_requests : list (string * json);
    sent_value : result json }.

Section Network.

(** The remote end of [requests.post(url, json=payload, headers=headers)]. *)
Variable http_post : string -> json -> Response.

(** [send_request(url, payload, element_type, x, y)] *)
Definition send_request (url : string) (payload : json)
    (element_type : string) (x y : Z) : Sent :=
  let response := http_post url payload in
  if status_code response =? 201 then
    {| sent_stdout :=
         [(Fmt.capitalize element_type
           ++ " created successfully at position ("
           ++ Fmt.str_int x ++ ", " ++ Fmt.str_int y ++ ")!")%string];
       sent_requests := [(url, payload)];
       sent_value := Ok (response_json response) |}
  else
    {| sent_stdout :=
         [("Failed to create " ++ element_type ++ ": "
           ++ Fmt.str_int (status_code response))%string;
          text response];
       sent_requests := [(url, payload)];
       sent_value := Ok JNone |}.

(** [create_miro_element], lines 122-134: the payload and the request,
    from the width, height, x and y that lines 115-120 have settled. *)
Definition create_miro_element_request (element_type board_id title : string)
    (description : json) (fillColor shape : string)
    (width height x y : Z) : Sent :=
  let b := build_payload element_type board_id title description
             fillColor shape width height x y in
  match built_url b, built_payload b with
  | Some url, Some payload =>
      if negb (String.eqb url "") then
        let r := send_request url payload element_type x y in
        {| sent_stdout := built_stdout b ++ sent_stdout r;
           sent_requests := sent_requests r;
           sent_value := sent_value r |}
      else
        {| sent_stdout := built_stdout b;
           sent_requests := [];
           sent_value := Ok JNone |}
  | _, _ =>
      {| sent_stdout := built_stdout b;
         sent_requests := [];
         sent_value := Ok JNone |}
  end.

End Network.

(* ------------------------------------------------------------------ *)
(** ** Fetching the items of a board *)

(** Exceptions of [get_items]. *)
Inductive fetch_error : Type :=
  ValueError | TypeError | AttributeError | KeyError.

Inductive attempt (A : Type) : Type :=
| Done (a : A)
| Fail (e : fetch_error).
Arguments Done {A} a.
Arguments Fail {A} e.

Definition and_then {A B : Type} (r : attempt A) (k : A -> attempt B)
    : attempt B :=
  match r with
  | Done a => k a
  | Fail e => Fail e
  end.

Notation "x <~ r ;; k" := (and_then r (fun x => k))
  (at level 61, r at next level, right associativity).

Module Py.
Local Open Scope string_scope.

(** Truth value of a Python object. *)
Definition truthy (v : json) : bool :=
  match v with
  | JNone => false
  | JBool b => b
  | JInt z => negb (z =? 0)%Z
  | JNum q => negb (Qeq_bool q 0)
  | JStr s => negb (String.eqb s "")
  | JList items => match items with [] => false | _ :: _ => true end
  | JDict fields => match fields with [] => false | _ :: _ => true end
  end.

(** [sub in s] for strings. *)
Fixpoint has_substring (sub s : string) : bool :=
  String.prefix sub s
  || match s with
     | EmptyString => false
     | String _ s' => has_substring sub s'
     end.

Definition is_str (k : string) (v : json) : bool :=
  match v with
  | JStr s => String.eqb k s
  | _ => false
  end.

(** [k in v] for a string [k]. *)
Definition contains (k : string) (v : json) : attempt bool :=
  match v with
  | JDict fields =>
      Done (match assoc k fields with Some _ => true | None => false end)
  | JList items => Done (existsb (is_str k) items)
  | JStr s => Done (has_substring k s)
  | _ => Fail TypeError
  end.

(** [v[k]] for a string [k]. *)
Definition index (v : json) (k : string) : attempt json :=
  match v with
  | JDict fields =>
      match assoc k fields with
      | Some x => Done x
      | None => Fail KeyError
      end
  | _ => Fail TypeError
  end.

(** [v.get(k, default)] *)
Definition get (v : json) (k : string) (default : json) : attempt json :=
  match v with
  | JDict fields =>
      Done (match assoc k fields with Some x => x | None => default end)
  | _ => Fail AttributeError
  end.

Fixpoint characters (s : string) : list json :=
  match s with
  | EmptyString => []
  | String c s' => JStr (String c EmptyString) :: characters s'
  end.

(** [items.extend(v)] *)
Definition extend (items : list json) (v : json) : attempt (list json) :=
  match v with
  | JList more => Done (items ++ more)%list
  | JDict fields => Done (items ++ map (fun kv => JStr (fst kv)) fields)%list
  | JStr s => Done (items ++ characters s)%list
  | _ => Fail TypeError
  end.

End Py.

(** A row of the DataFrame that [get_items] returns. *)
Record Row : Type := mkRow
  { row_id : json;
    row_type : json;
    row_content : json;
    row_shape : json;
    row_fillColor : json;
    row_width : json;
    row_height : json;
    row_x : json;
    row_y : json;
    row_createdAt : json;
    row_modifiedAt : json;
    row_createdBy : json;
    row_modifiedBy : json }.

(** The dict built for one item, lines 64-78. *)
Definition row_of_item (item : json) : attempt Row :=
  id <~ Py.get item "id" JNone ;;
  type <~ Py.get item "type" JNone ;;
  data <~ Py.get item "data" (JDict []) ;;
  content <~ Py.get data "content" (JStr "") ;;
  data' <~ Py.get item "data" (JDict []) ;;
  shape <~ Py.get data' "shape" (JStr "") ;;
  style <~ Py.get item "style" (JDict []) ;;
  fillColor <~ Py.get style "fillColor" (JStr "") ;;
  geometry <~ Py.get item "geometry" (JDict []) ;;
  width <~ Py.get geometry "width" JNone ;;
  geometry' <~ Py.get item "geometry" (JDict []) ;;
  height <~ Py.get geometry' "height" JNone ;;
  position <~ Py.get item "position" (JDict []) ;;
  x <~ Py.get position "x" JNone ;;
  position' <~ Py.get item "position" (JDict []) ;;
  y <~ Py.get position' "y" JNone ;;
  createdAt <~ Py.get item "createdAt" JNone ;;
  modifiedAt <~ Py.get item "modifiedAt" JNone ;;
  createdBy <~ Py.get item "createdBy" (JDict []) ;;
  createdBy_id <~ Py.get createdBy "id" JNone ;;
  modifiedBy <~ Py.get item "modifiedBy" (JDict []) ;;
  modifiedBy_id <~ Py.get modifiedBy "id" JNone ;;
  Done {| row_id := id;
          row_type := type;
          row_content := content;
          row_shape := shape;
          row_fillColor := fillColor;
          row_width := width;
          row_height := height;
          row_x := x;
          row_y := y;
          row_createdAt := createdAt;
          row_modifiedAt := modifiedAt;
          row_createdBy := createdBy_id;
          row_modifiedBy := modifiedBy_id |}.

(** The loop over the items, lines 62-79. *)
Fixpoint rows_of_items (items : list json) : attempt (list Row) :=
  match items with
  | [] => Done []
  | item :: rest =>
      row <~ row_of_item item ;;
      rows <~ rows_of_items rest ;;
      Done (row :: rows)
  end.

Section Fetch.

(** The remote end of [requests.get(url, headers=headers, params=params)]
    followed by [response.json()]: the URL, the limit and the cursor
    parameter, absent on the first request. *)
Variable http_get : string -> Z -> option json -> json.

Variables (board_id : string) (limit : Z).

Definition items_url : string :=
  ("https://api.miro.com/v2" ++ "/boards/" ++ board_id ++ "/items")%string.

(** The [while True] loop, lines 46-59.  [cursor] is the entry of
    [params] for the cursor, [items] the list collected so far; [fuel]
    bounds the number of requests, and [None] means it was too small. *)
Fixpoint fetch_pages (fuel : nat) (cursor : option json) (items : list json)
    : option (attempt (list json)) :=
  match fuel with
  | O => None
  | S fuel' =>
      let data := http_get items_url limit cursor in
      match Py.contains "data" data with
      | Fail e => Some (Fail e)
      | Done false => Some (Fail ValueError)
      | Done true =>
          match Py.index data "data" with
          | Fail e => Some (Fail e)
          | Done page =>
              match Py.extend items page with
              | Fail e => Some (Fail e)
              | Done items' =>
                  match Py.get data "cursor" JNone with
                  | Fail e => Some (Fail e)
                  | Done next =>
                      if Py.truthy next
                      then fetch_pages fuel' (Some next) items'
                      else Some (Done items')
                  end
              end
          end
      end
  end.

(** [get_items(board_id, limit=50)] *)
Definition get_items (fuel : nat) : option (attempt (list Row)) :=
  match fetch_pages fuel None [] with
  | None => None
  | Some (Fail e) => Some (Fail e)
  | Some (Done items) => Some (rows_of_items items)
  end.

(** The cursor a response carries, [None] when it has none. *)
Definition cursor_of (fields : list (string * json)) : json :=
  match assoc "cursor" fields with Some v => v | None => JNone end.

(** [follows c items n c']: from the cursor [c], [n] responses in a row
    are dicts with a list under "data" and a true cursor; they hold
    [items] in all and the last of them points to [c']. *)
Inductive follows : option json -> list json -> nat -> option json -> Prop :=
| follows_here (c : option json) : follows c [] 0 c
| follows_next (c : option json) (fields : list (string * json))
    (page items : list json) (n : nat) (c' : option json) :
    http_get items_url limit c = JDict fields ->
    assoc "data" fields = Some (JList page) ->
    Py.truthy (cursor_of fields) = true ->
    follows (Some (cursor_of fields)) items n c' ->
    follows c (page ++ items) (S n) c'.

End Fetch.

(** The value at a path of keys in an item, or a default when the path
    is not there. *)
Definition at_path (path : list string) (default item : json) : json :=
  match json_path path item with
  | Some v => v
  | None => default
  end.

(** An entry that [.get(k, {})] can be followed by another [.get]: it is
    absent, or it is a dict. *)
Definition dict_or_absent (fields : list (string * json)) (k : string) : bool :=
  match assoc k fields with
  | None => true
  | Some (JDict _) => true
  | Some _ => false
  end.

Definition nested_keys : list string :=
  ["data"; "style"; "geometry"; "position"; "createdBy"; "modifiedBy"]%string.

Definition item_ok (item : json) : bool :=
  match item with
  | JDict fields => forallb (dict_or_absent fields) nested_keys
  | _ => false
  end.

(** The thirteen columns read off an item by their paths. *)
Definition columns_of_item (item : json) : Row :=
  {| row_id := at_path ["id"] JNone item;
     row_type := at_path ["type"] JNone item;
     row_content := at_path ["data"; "content"] (JStr "") item;
     row_shape := at_path ["data"; "shape"] (JStr "") item;
     row_fillColor := at_path ["style"; "fillColor"] (JStr "") item;
     row_width := at_path ["geometry"; "width"] JNone item;
     row_height := at_path ["geometry"; "height"] JNone item;
     row_x := at_path ["position"; "x"] JNone item;
     row_y := at_path ["position"; "y"] JNone item;
     row_createdAt := at_path ["createdAt"] JNone item;
     row_modifiedAt := at_path ["modifiedAt"] JNone item;
     row_createdBy := at_path ["createdBy"; "id"] JNone item;
     row_modifiedBy := at_path ["modifiedBy"; "id"] JNone item |}%string.

(** What the hex validator lets through: [#] and 3 or 6 hexadecimal
    digits, possibly followed by one newline. *)
Definition validated_hex (c : string) : Prop :=
  is_hex_color c = true
  \/ exists t, c = (t ++ String Re.newline "")%string /\ is_hex_color t = true.

Definition element_types : list string :=
  ["card"; "sticky_note"; "shape"]%string.

(** The end of the URL for each known type. *)
Definition endpoint (element_type : string) : string :=
  if String.eqb element_type "card" then "/cards"
  else if String.eqb element_type "sticky_note" then "/sticky_notes"
  else "/shapes".

(* ------------------------------------------------------------------ *)
(** ** Facts about the collision detector *)

Section CollisionFacts.
Local Open Scope Q_scope.

Lemma expanded_far_edge (c s : Q) :
  c - s / 2 - s * (1 # 10) + (s + 2 * (s * (1 # 10))) == expanded_max c s.
Proof. unfold expanded_max, clearance. field. Qed.

Lemma expanded_near_edge (c s : Q) :
  c - s / 2 - s * (1 # 10) == expanded_min c s.
Proof. unfold expanded_min, clearance. field. Qed.

Lemma other_far_edge (o s : Q) : o - s / 2 + s == other_max o s.
Proof. unfold other_max. field. Qed.

Lemma axis_test_spec (c cs o os : Q) :
  Qle_bool (o - os / 2) (c - cs / 2 - cs * (1 # 10) + (cs + 2 * (cs * (1 # 10))))
  && Qle_bool (c - cs / 2 - cs * (1 # 10)) (o - os / 2 + os) = true
  <-> axis_overlap c cs o os.
Proof.
  unfold axis_overlap.
  rewrite andb_true_iff, !Qle_bool_iff.
  rewrite expanded_far_edge, expanded_near_edge, other_far_edge.
  unfold other_min. tauto.
Qed.

End CollisionFacts.

(* ------------------------------------------------------------------ *)
(** ** Facts about the spiral search *)

Lemma last_cons_default {A : Type} (a : A) (l : list A) (d d' : A) :
  last (a :: l) d = last (a :: l) d'.
Proof.
  revert a. induction l as [|b l IH]; intros a; [reflexivity|].
  change (last (b :: l) d = last (b :: l) d'). apply IH.
Qed.

Section SpiralFacts.

Variables (width height : Z) (existing_items : DataFrame).
Variables (initial_step max_attempts increase_step_interval : Z).

Local Abbreviation body := (loop_body initial_step increase_step_interval).
Local Abbreviation cond := (loop_condition width height existing_items max_attempts).
Local Abbreviation loop :=
  (while_loop width height existing_items initial_step max_attempts
     increase_step_interval).

Lemma loop_body_attempts (s s' : State) :
  body s = Ok s' -> attempts s' = attempts s + 1.
Proof.
  unfold loop_body.
  destruct (py_getitem (directions s) (direction_index s)) as [[dx dy]|e];
    simpl; [|discriminate].
  destruct (py_mod (attempts s + 1) increase_step_interval) as [r|e];
    simpl; [|discriminate].
  destruct (steps_taken s + 1 =? steps_in_current_leg s);
    intros [= <-]; reflexivity.
Qed.


Lemma loop_body_step (s s' : State) :
  body s = Ok s' ->
  step s' = (if (attempts s + 1) mod increase_step_interval =? 0
             then step s + initial_step else step s)
  /\ directions s' = (if (attempts s + 1) mod increase_step_interval =? 0
                      then make_directions (step s') else directions s).
Proof.
  unfold loop_body, py_mod.
  destruct (py_getitem (directions s) (direction_index s)) as [[dx dy]|e];
    simpl; [|discriminate].
  destruct (increase_step_interval =? 0); simpl; [discriminate|].
  destruct ((attempts s + 1) mod increase_step_interval =? 0);
    destruct (steps_taken s + 1 =? steps_in_current_leg s);
    intros [= <-]; simpl; split; reflexivity.
Qed.

Lemma direction_index_cases (i : Z) :
  0 <= i < 4 -> i = 0 \/ i = 1 \/ i = 2 \/ i = 3.
Proof. lia. Qed.

Lemma loop_body_ok (s : State) :
  increase_step_interval <> 0 -> state_ok s ->
  exists s', body s = Ok s' /\ state_ok s'.
Proof.
  intros Hg [Hd Hi].
  apply Z.eqb_neq in Hg.
  unfold loop_body, py_mod. rewrite Hd, Hg.
  destruct (direction_index_cases _ Hi) as [E|[E|[E|E]]]; rewrite E; simpl;
    destruct ((attempts s + 1) mod increase_step_interval =? 0);
    destruct (steps_taken s + 1 =? steps_in_current_leg s);
    eexists; (split; [reflexivity|]); unfold state_ok; simpl;
    (split; [first [reflexivity | assumption]
            | first [lia | apply Z.mod_pos_bound; lia]]).
Qed.

Lemma while_loop_total (fuel : nat) :
  forall s, (Z.to_nat (max_attempts - attempts s) < fuel)%nat ->
  exists r, loop fuel s = Some r.
Proof.
  induction fuel as [|fuel IH]; intros s Hf; [lia|].
  simpl. destruct (cond s) eqn:Hc; [|eauto].
  destruct (body s) as [s'|e] eqn:Hb; [|eauto].
  unfold loop_condition in Hc. apply andb_true_iff in Hc.
  destruct Hc as [_ Hlt]. apply Z.ltb_lt in Hlt.
  apply loop_body_attempts in Hb.
  destruct (IH s') as [r Hr]; [lia|].
  rewrite Hr. simpl. eauto.
Qed.

Lemma while_loop_more_fuel (fuel : nat) :
  forall s r, loop fuel s = Some r -> loop (S fuel) s = Some r.
Proof.
  induction fuel as [|fuel IH]; intros s r H; [discriminate|].
  simpl in H. change (loop (S (S fuel)) s) with
    (if cond s then
       match body s with
       | Raise e => Some {| visited := [position s]; final := Raise e |}
       | Ok s' => option_map (log_visit (position s)) (loop (S fuel) s')
       end
     else Some {| visited := [position s]; final := Ok s |}).
  destruct (cond s); [|assumption].
  destruct (body s) as [s'|e]; [|assumption].
  destruct (loop fuel s') as [r'|] eqn:Hr; [|discriminate].
  rewrite (IH _ _ Hr). assumption.
Qed.

Lemma while_loop_head (fuel : nat) (s : State) (r : Search) :
  loop fuel s = Some r -> exists rest, visited r = position s :: rest.
Proof.
  destruct fuel as [|fuel]; [discriminate|]. simpl.
  destruct (cond s).
  - destruct (body s) as [s'|e].
    + destruct (loop fuel s') as [r'|]; [|discriminate].
      intros [= <-]. simpl. eauto.
    + intros [= <-]. simpl. eauto.
  - intros [= <-]. simpl. eauto.
Qed.

Lemma while_loop_length (fuel : nat) :
  forall s r, loop fuel s = Some r ->
  (List.length (visited r) <= S (Z.to_nat (max_attempts - attempts s)))%nat.
Proof.
  induction fuel as [|fuel IH]; intros s r; [discriminate|]. simpl.
  destruct (cond s) eqn:Hc.
  - unfold loop_condition in Hc. apply andb_true_iff in Hc.
    destruct Hc as [_ Hlt]. apply Z.ltb_lt in Hlt.
    destruct (body s) as [s'|e] eqn:Hb.
    + destruct (loop fuel s') as [r'|] eqn:Hr; [|discriminate].
      intros [= <-]. simpl.
      apply loop_body_attempts in Hb. specialize (IH _ _ Hr). lia.
    + intros [= <-]. simpl. lia.
  - intros [= <-]. simpl. lia.
Qed.

(** A run from a well-formed state with a non-zero interval ends without
    an exception, in the state of the last position tested; the loop
    condition is false there and the budget was not overrun. *)
Lemma while_loop_exit (fuel : nat) :
  increase_step_interval <> 0 ->
  forall s r, state_ok s -> loop fuel s = Some r ->
  exists sf, final r = Ok sf /\ state_ok sf
    /\ last (visited r) (position s) = position sf
    /\ cond sf = false
    /\ attempts sf <= Z.max (attempts s) max_attempts.
Proof.
  intros Hg.
  induction fuel as [|fuel IH]; intros s r Hok; [discriminate|]. simpl.
  destruct (cond s) eqn:Hc.
  - destruct (loop_body_ok s Hg Hok) as [s' [Hb Hok']]. rewrite Hb.
    destruct (loop fuel s') as [r'|] eqn:Hr; [|discriminate].
    intros [= <-].
    destruct (IH _ _ Hok' Hr) as [sf [Hf [Hokf [Hl [Hcf Ha]]]]].
    exists sf. simpl. repeat split; try assumption; try apply Hokf.
    + destruct (while_loop_head _ _ _ Hr) as [rest Hv].
      rewrite Hv in *.
      rewrite (last_cons_default _ rest (position s) (position s')). exact Hl.
    + unfold loop_condition in Hc. apply andb_true_iff in Hc.
      destruct Hc as [_ Hlt]. apply Z.ltb_lt in Hlt.
      apply loop_body_attempts in Hb. lia.
  - intros [= <-]. exists s. simpl. repeat split; try assumption; try apply Hok.
    lia.
Qed.

Lemma initial_state_ok (x y : Z) : state_ok (initial_state initial_step x y).
Proof. unfold state_ok. simpl. split; [reflexivity | lia]. Qed.

(** The bound used by [search] is enough. *)
Lemma while_loop_search (x y : Z) :
  loop (search_fuel max_attempts) (initial_state initial_step x y)
  = Some (search width height existing_items initial_step max_attempts
            increase_step_interval x y).
Proof.
  unfold search.
  destruct (while_loop_total (search_fuel max_attempts)
              (initial_state initial_step x y)) as [r Hr].
  - unfold search_fuel. simpl. rewrite Z.sub_0_r. lia.
  - rewrite Hr. reflexivity.
Qed.

Lemma while_loop_follows_path (k : nat) :
  forall fuel s r,
  loop fuel s = Some r ->
  Z.of_nat k <= max_attempts - attempts s ->
  forallb (collides_at width height existing_items)
    (firstn k (spiral_path initial_step increase_step_interval k s)) = true ->
  List.length (spiral_path initial_step increase_step_interval k s) = S k ->
  firstn (S k) (visited r)
  = spiral_path initial_step increase_step_interval k s.
Proof.
  induction k as [|k IH]; intros fuel s r Hr Hk Hcol Hlen.
  - destruct (while_loop_head _ _ _ Hr) as [rest Hv]. rewrite Hv. reflexivity.
  - destruct fuel as [|fuel]; [discriminate|].
    simpl in Hr.
    change (spiral_path initial_step increase_step_interval (S k) s)
      with (position s ::
            match body s with
            | Ok s' => spiral_path initial_step increase_step_interval k s'
            | Raise _ => []
            end) in *.
    simpl in Hcol. apply andb_true_iff in Hcol. destruct Hcol as [Hc0 Hcol].
    unfold loop_condition in Hr. rewrite Hc0 in Hr.
    replace (attempts s <? max_attempts) with true in Hr
      by (symmetry; apply Z.ltb_lt; lia).
    simpl in Hr.
    destruct (body s) as [s'|e] eqn:Hb; [|simpl in Hlen; lia].
    destruct (loop fuel s') as [r'|] eqn:Hr'; [|discriminate].
    injection Hr as <-.
    change (firstn (S (S k)) (visited (log_visit (position s) r')))
      with (position s :: firstn (S k) (visited r')).
    f_equal.
    apply (IH fuel s' r' Hr').
    + rewrite (loop_body_attempts _ _ Hb). lia.
    + exact Hcol.
    + simpl in Hlen. lia.
Qed.

End SpiralFacts.

Lemma find_free_position_probed (x y w h : Z) (ex : DataFrame) (s0 n g : Z) :
  probed (find_free_position x y w h ex s0 n g)
  = visited (search w h ex s0 n g x y).
Proof.
  unfold find_free_position, find_free_position_from.
  destruct (final (search w h ex s0 n g x y)); reflexivity.
Qed.

(** With a non-zero interval a call ends normally, on the last position it
    tested; if that position still collides and the budget is not
    negative, the message was printed. *)
Lemma find_free_position_exit (x y w h : Z) (ex : DataFrame) (s0 n g : Z) :
  g <> 0 ->
  exists p, returned (find_free_position x y w h ex s0 n g) = Ok p
    /\ last (probed (find_free_position x y w h ex s0 n g)) (x, y) = p
    /\ (collides_at w h ex p = true -> 0 <= n ->
        printed (find_free_position x y w h ex s0 n g) = [unable_message]).
Proof.
  intros Hg.
  rewrite find_free_position_probed.
  unfold find_free_position, find_free_position_from.
  destruct (while_loop_exit w h ex s0 n g _ Hg _ _
              (initial_state_ok s0 x y) (while_loop_search w h ex s0 n g x y))
    as [sf [Hf [_ [Hl [Hc Ha]]]]].
  rewrite Hf. simpl. exists (position sf).
  split; [reflexivity|]. split; [exact Hl|].
  intros Hcol Hn.
  unfold loop_condition in Hc. rewrite Hcol in Hc. simpl in Hc.
  apply Z.ltb_ge in Hc. simpl in Ha.
  replace (attempts sf =? n) with true; [reflexivity|].
  symmetry. apply Z.eqb_eq. lia.
Qed.

(** C4: whatever the inputs, the loop of the search ends within the bound
    [search_fuel]; for a budget [N >= 0] the collision test is evaluated
    at no more than [N + 1] positions, the anchor included. *)
Theorem find_free_position_probe_bound
    (x y w h : Z) (ex : DataFrame) (s0 N g : Z) :
  0 <= N ->
  exists r,
    while_loop w h ex s0 N g (search_fuel N) (initial_state s0 x y) = Some r
    /\ probed (find_free_position x y w h ex s0 N g) = visited r
    /\ Z.of_nat (List.length (visited r)) <= N + 1.
Proof.
  intros HN.
  exists (search w h ex s0 N g x y).
  split; [apply while_loop_search|].
  split; [apply find_free_position_probed|].
  pose proof (while_loop_length w h ex s0 N g _ _ _
                (while_loop_search w h ex s0 N g x y)) as Hlen.
  simpl in Hlen. rewrite Z.sub_0_r in Hlen. lia.
Qed.

Lemma find_free_position_probe_bound_witness :
  exists r,
    while_loop 300 300 [mkItem 0 0 300 300] 50 3 100 (search_fuel 3)
      (initial_state 50 0 0) = Some r
    /\ probed (find_free_position 0 0 300 300 [mkItem 0 0 300 300] 50 3 100)
       = visited r
    /\ Z.of_nat (List.length (visited r)) <= 3 + 1.
Proof.
  apply (find_free_position_probe_bound 0 0 300 300 [mkItem 0 0 300 300] 50 3 100).
  lia.
Defined.

(** C2 (as the code has it): with a non-zero growth interval the search
    raises nothing and returns a bare position, the last one it tested;
    when that position still collides and the budget is not negative, the
    only trace of the failure is the printed message.  The placement
    raises nothing either: it takes the returned position as the final
    coordinates and passes the same message on. *)
Theorem find_free_position_returns_last_visited
    (element_type title : string) (x y w h : Z) (ex : DataFrame)
    (s0 n g : Z) :
  g <> 0 ->
  let o := find_free_position x y w h ex s0 n g in
  let pl := create_miro_element element_type title w h x y ex in
  (exists p, returned o = Ok p
     /\ last (probed o) (x, y) = p
     /\ (collides_at w h ex p = true -> 0 <= n ->
         printed o = [unable_message]))
  /\ (exists geo, geometry pl = Ok geo
        /\ (ex <> [] ->
            last (search_probed pl) (x, y) = (geo_x geo, geo_y geo)
            /\ (collides_at (geo_width geo) (geo_height geo) ex
                  (geo_x geo, geo_y geo) = true ->
                stdout pl = [unable_message]))).
Proof.
  intros Hg o pl. split.
  - apply find_free_position_exit. exact Hg.
  - subst pl. unfold create_miro_element.
    destruct ex as [|e ex']; simpl.
    + eexists. split; [reflexivity|]. intros H. contradiction H. reflexivity.
    + set (hh := if (element_type =? "card")%string
                 then adjust_card_height title h else h).
      destruct (find_free_position_exit x y (Z.max w 256) hh (e :: ex')
                  default_initial_step default_max_attempts
                  default_increase_step_interval)
        as [[px py] [Hr [Hl Hp]]]; [discriminate|].
      rewrite Hr. simpl. eexists. split; [reflexivity|].
      intros _. simpl. split; [exact Hl|].
      intros Hcol. apply Hp; [exact Hcol | discriminate].
Qed.

Lemma find_free_position_returns_last_visited_witness :
  let ex := [mkItem 0 0 300 300] in
  let o := find_free_position 0 0 300 300 ex 50 3 100 in
  let pl := create_miro_element "shape" "Titel" 300 300 0 0 ex in
  (exists p, returned o = Ok p
     /\ last (probed o) (0, 0) = p
     /\ (collides_at 300 300 ex p = true -> 0 <= 3 ->
         printed o = [unable_message]))
  /\ (exists geo, geometry pl = Ok geo
        /\ (ex <> [] ->
            last (search_probed pl) (0, 0) = (geo_x geo, geo_y geo)
            /\ (collides_at (geo_width geo) (geo_height geo) ex
                  (geo_x geo, geo_y geo) = true ->
                stdout pl = [unable_message]))).
Proof.
  apply (find_free_position_returns_last_visited
           "shape" "Titel" 0 0 300 300 [mkItem 0 0 300 300] 50 3 100).
  lia.
Defined.

(** C2, as stated, fails: no flag read off the returned value can tell a
    search that ended on a colliding position from one that found a free
    place.  With a budget of 0 on top of an obstacle, and with the default
    budget far from any obstacle, the call returns the same pair [(0, 0)]. *)
Lemma find_free_position_has_no_found_flag :
  ~ exists found : result (Z * Z) -> bool,
      forall (x y w h : Z) (ex : DataFrame) (s0 n g : Z),
        found (returned (find_free_position x y w h ex s0 n g)) = false
        <-> exists p, returned (find_free_position x y w h ex s0 n g) = Ok p
                      /\ collides_at w h ex p = true.
Proof.
  intros [found H].
  pose proof (H 0 0 300 300 [mkItem 0 0 300 300] 50 0 100) as Hnear.
  pose proof (H 0 0 300 300 [mkItem 1000 1000 300 300] 50 10000 100) as Hfar.
  change (returned (find_free_position 0 0 300 300 [mkItem 0 0 300 300] 50 0 100))
    with (@Ok (Z * Z) (0, 0)) in Hnear.
  change (returned (find_free_position 0 0 300 300
                      [mkItem 1000 1000 300 300] 50 10000 100))
    with (@Ok (Z * Z) (0, 0)) in Hfar.
  assert (Hf : found (Ok (0, 0)) = false).
  { apply Hnear. exists (0, 0). split; reflexivity. }
  apply Hfar in Hf. destruct Hf as [p [Hp Hc]].
  injection Hp as <-. discriminate Hc.
Qed.

(** C3 (as the code has it): a width or height [<= 0] is not rejected.
    The search handles it like any other size and returns a position; the
    placement raises the width to at least 256 and keeps the height it
    was given (after the card adjustment). *)
Theorem nonpositive_size_is_not_rejected
    (element_type title : string) (x y w h : Z) (ex : DataFrame)
    (s0 n g : Z) :
  w <= 0 \/ h <= 0 ->
  g <> 0 ->
  (exists p, returned (find_free_position x y w h ex s0 n g) = Ok p)
  /\ (exists geo,
        geometry (create_miro_element element_type title w h x y ex) = Ok geo
        /\ geo_width geo = Z.max w 256
        /\ geo_height geo =
             (if String.eqb element_type "card"
              then adjust_card_height title h else h)).
Proof.
  intros _ Hg. split.
  - destruct (find_free_position_exit x y w h ex s0 n g Hg) as [p [Hp _]].
    exists p. exact Hp.
  - unfold create_miro_element.
    destruct ex as [|e ex']; simpl.
    + eexists. repeat split.
    + set (hh := if (element_type =? "card")%string
                 then adjust_card_height title h else h).
      destruct (find_free_position_exit x y (Z.max w 256) hh (e :: ex')
                  default_initial_step default_max_attempts
                  default_increase_step_interval)
        as [[px py] [Hr _]]; [discriminate|].
      rewrite Hr. simpl. eexists. repeat split.
Qed.

Lemma nonpositive_size_is_not_rejected_witness :
  (exists p,
     returned (find_free_position 0 0 300 0 [mkItem 0 0 300 300] 50 10000 100)
     = Ok p)
  /\ (exists geo,
        geometry (create_miro_element "shape" "Titel" 300 0 0 0
                    [mkItem 0 0 300 300]) = Ok geo
        /\ geo_width geo = Z.max 300 256
        /\ geo_height geo =
             (if String.eqb "shape" "card"
              then adjust_card_height "Titel" 0 else 0)).
Proof.
  apply (nonpositive_size_is_not_rejected
           "shape" "Titel" 0 0 300 0 [mkItem 0 0 300 300] 50 10000 100).
  - right. lia.
  - lia.
Defined.

(** C3, as stated, fails: given height 0 before the obstacle, the search
    is not refused; it takes 56 steps and returns [(200, 200)]. *)
Lemma zero_height_is_searched :
  let o := find_free_position 0 0 300 0 [mkItem 0 0 300 300] 50 10000 100 in
  returned o = Ok (200, 200) /\ List.length (probed o) = 57%nat.
Proof. vm_compute. split; reflexivity. Qed.

(** C5: from the anchor (0, 0) with step 50 (interval 100, any budget of
    at least 8), when the first nine candidate positions all collide, the
    positions tested after the anchor begin (50,0), (50,50), (0,50),
    (-50,50), (-50,0), (-50,-50), (0,-50), (50,-50): legs of length
    1, 1, 2, 2, ... in the directions +x, +y, -x, -y. *)
Theorem spiral_leg_trace (w h : Z) (ex : DataFrame) (n : Z) :
  8 <= n ->
  forallb (collides_at w h ex)
    [(0, 0); (50, 0); (50, 50); (0, 50); (-50, 50); (-50, 0); (-50, -50);
     (0, -50); (50, -50)] = true ->
  firstn 8 (tl (probed (find_free_position 0 0 w h ex 50 n 100)))
  = [(50, 0); (50, 50); (0, 50); (-50, 50); (-50, 0); (-50, -50);
     (0, -50); (50, -50)].
Proof.
  intros Hn Hcol.
  rewrite find_free_position_probed.
  pose proof (while_loop_follows_path w h ex 50 n 100 8 _ _ _
                (while_loop_search w h ex 50 n 100 0 0)) as Hp.
  change (spiral_path 50 100 8 (initial_state 50 0 0))
    with [(0, 0); (50, 0); (50, 50); (0, 50); (-50, 50); (-50, 0);
          (-50, -50); (0, -50); (50, -50)] in Hp.
  assert (Hpre : firstn 9 (visited (search w h ex 50 n 100 0 0))
                 = [(0, 0); (50, 0); (50, 50); (0, 50); (-50, 50); (-50, 0);
                    (-50, -50); (0, -50); (50, -50)]).
  { apply Hp.
    - simpl. lia.
    - change (forallb (collides_at w h ex)
                [(0, 0); (50, 0); (50, 50); (0, 50); (-50, 50); (-50, 0);
                 (-50, -50); (0, -50)] = true).
      simpl in Hcol. simpl.
      repeat (apply andb_true_iff in Hcol; destruct Hcol as [?H Hcol]).
      repeat (apply andb_true_iff; split; try assumption).
    - reflexivity. }
  destruct (visited (search w h ex 50 n 100 0 0)) as [|p0 rest];
    [discriminate|].
  change (firstn 9 (p0 :: rest)) with (p0 :: firstn 8 rest) in Hpre.
  injection Hpre as _ Hrest. exact Hrest.
Qed.

Lemma spiral_leg_trace_witness :
  firstn 8 (tl (probed (find_free_position 0 0 300 300 [mkItem 0 0 300 300]
                          50 10000 100)))
  = [(50, 0); (50, 50); (0, 50); (-50, 50); (-50, 0); (-50, -50);
     (0, -50); (50, -50)].
Proof.
  apply (spiral_leg_trace 300 300 [mkItem 0 0 300 300] 10000).
  - lia.
  - reflexivity.
Defined.

(* ------------------------------------------------------------------ *)
(** ** Step growth *)

Section StepGrowth.

Variables (initial_step increase_step_interval : Z).
Hypothesis interval_nonzero : increase_step_interval <> 0.

Local Abbreviation body := (loop_body initial_step increase_step_interval).
Local Abbreviation iter := (iterate_body initial_step increase_step_interval).


End StepGrowth.



(** The states of an actual run are those of [iterate_body]: a run that
    tested [k + 1] positions ends in the state after [k] executions of the
    body. *)
Lemma iterate_body_shift (s0 g : Z) (n : nat) :
  forall s,
  iterate_body s0 g (S n) s
  = (s' <- loop_body s0 g s ;; iterate_body s0 g n s').
Proof.
  induction n as [|n IH]; intros s.
  - simpl. destruct (loop_body s0 g s); reflexivity.
  - change (iterate_body s0 g (S (S n)) s)
      with (s' <- iterate_body s0 g (S n) s ;; loop_body s0 g s').
    rewrite IH.
    destruct (loop_body s0 g s) as [s1|e]; reflexivity.
Qed.

Lemma while_loop_final_iterate (w h : Z) (ex : DataFrame) (s0 n g : Z)
    (fuel : nat) :
  g <> 0 ->
  forall s r, state_ok s ->
  while_loop w h ex s0 n g fuel s = Some r ->
  final r = iterate_body s0 g (Nat.pred (List.length (visited r))) s.
Proof.
  intros Hg.
  induction fuel as [|fuel IH]; intros s r Hok; [discriminate|]. simpl.
  destruct (loop_condition w h ex n s).
  - destruct (loop_body_ok s0 g s Hg Hok) as [s' [Hb Hok']]. rewrite Hb.
    destruct (while_loop w h ex s0 n g fuel s') as [r'|] eqn:Hr;
      [|discriminate].
    intros [= <-]. simpl.
    destruct (while_loop_head _ _ _ _ _ _ _ _ _ Hr) as [rest Hv].
    rewrite (IH _ _ Hok' Hr), Hv.
    change (Nat.pred (List.length (position s' :: rest)))
      with (List.length rest).
    change (List.length (position s' :: rest)) with (S (List.length rest)).
    rewrite iterate_body_shift, Hb. reflexivity.
  - intros [= <-]. reflexivity.
Qed.

(* ------------------------------------------------------------------ *)
(** ** Scenarios and the placement *)

(** C7: with one 300 x 300 rectangle centred at (0, 0), a 300 x 300 item
    requested at (0, 0) with the default parameters is placed at
    (-250, -350), silently, and the collision test on that position, run
    again, reports no overlap with the obstacle. *)
Theorem single_obstacle_placement_is_free :
  let ex := [mkItem 0 0 300 300] in
  let o := find_free_position 0 0 300 300 ex
             default_initial_step default_max_attempts
             default_increase_step_interval in
  let pl := create_miro_element "card" "Titel" 300 300 0 0 ex in
  returned o = Ok (-250, -350)
  /\ printed o = []
  /\ geometry pl = Ok {| geo_x := -250; geo_y := -350;
                         geo_width := 300; geo_height := 300 |}
  /\ is_collision (-250 # 1) (-350 # 1) (300 # 1) (300 # 1) ex = false.
Proof. vm_compute. repeat split. Qed.

(** C8: on an empty board the placement keeps the requested anchor,
    whatever the type, title and size, and the search is not called: no
    position is tested and nothing is printed. *)
Theorem empty_canvas_keeps_anchor
    (element_type title : string) (width height x y : Z) :
  let pl := create_miro_element element_type title width height x y [] in
  (exists geo, geometry pl = Ok geo /\ geo_x geo = x /\ geo_y geo = y)
  /\ search_size pl = None
  /\ search_probed pl = []
  /\ stdout pl = [].
Proof.
  unfold create_miro_element. simpl.
  split; [|repeat split].
  eexists. split; [reflexivity|]. split; reflexivity.
Qed.

(** C9 (as the code has it): the placement adjusts the height itself when
    the element is a card, before anything else; the height it gives to
    the search and the height it emits are the caller's height for the
    other types and [adjust_card_height title height] for a card. *)
Theorem placement_height
    (element_type title : string) (width height x y : Z)
    (existing_items : DataFrame) :
  let pl := create_miro_element element_type title width height x y
              existing_items in
  let fed := if String.eqb element_type "card"
             then adjust_card_height title height else height in
  (exists geo, geometry pl = Ok geo /\ geo_height geo = fed)
  /\ search_size pl = (if df_empty existing_items then None
                       else Some (Z.max width 256, fed)).
Proof.
  unfold create_miro_element.
  destruct existing_items as [|e ex']; simpl.
  - split; [|reflexivity]. eexists. split; reflexivity.
  - split; [|reflexivity].
    set (hh := if (element_type =? "card")%string
               then adjust_card_height title height else height).
    destruct (find_free_position_exit x y (Z.max width 256) hh (e :: ex')
                default_initial_step default_max_attempts
                default_increase_step_interval)
      as [[px py] [Hr _]]; [discriminate|].
    rewrite Hr. simpl. eexists. split; reflexivity.
Qed.

(** C9, as stated, fails: a card of height 300 whose title has 14
    characters is searched for, and emitted, with height 325. *)
Lemma card_height_is_adjusted_by_the_placement :
  let pl := create_miro_element "card" "ABCDEFGHIJKLMN" 300 300 0 0
              [mkItem 0 0 300 300] in
  search_size pl = Some (300, 325)
  /\ exists geo, geometry pl = Ok geo /\ geo_height geo = 325
                 /\ geo_height geo <> 300.
Proof.
  vm_compute. split; [reflexivity|].
  eexists. split; [reflexivity|]. split; [reflexivity|discriminate].
Qed.

(* ------------------------------------------------------------------ *)
(** ** Colour validation *)

Section HexFacts.
Local Open Scope string_scope.

Lemma iter_exec_nil (n : nat) :
  Nat.iter n (flat_map (Re.exec hex_digit)) [] = [].
Proof.
  induction n as [|n IH]; [reflexivity|].
  rewrite Nat.iter_succ, IH. reflexivity.
Qed.

Lemma iter_exec_hex (n : nat) :
  forall b s,
  Nat.iter (S n) (flat_map (Re.exec hex_digit)) [(b, s)]
  = match strip_hex (S n) s with
    | Some rest => [(false, rest)]
    | None => []
    end.
Proof.
  induction n as [|n IH]; intros b s.
  - destruct s as [|c rest]; [reflexivity|].
    change (Nat.iter 1 (flat_map (Re.exec hex_digit)) [(b, String c rest)])
      with (Re.exec hex_digit (b, String c rest) ++ [])%list.
    change (Re.exec hex_digit (b, String c rest))
      with (if is_hex_digit c then [(false, rest)] else []).
    change (strip_hex 1 (String c rest))
      with (if is_hex_digit c then Some rest else None).
    destruct (is_hex_digit c); reflexivity.
  - rewrite Nat.iter_succ_r.
    change (flat_map (Re.exec hex_digit) [(b, s)])
      with (Re.exec hex_digit (b, s) ++ [])%list.
    rewrite app_nil_r.
    change (strip_hex (S (S n)) s)
      with (match s with
            | String c rest =>
                if is_hex_digit c then strip_hex (S n) rest else None
            | EmptyString => None
            end).
    destruct s as [|c rest]; [apply iter_exec_nil|].
    change (Re.exec hex_digit (b, String c rest))
      with (if is_hex_digit c then [(false, rest)] else []).
    destruct (is_hex_digit c); [apply IH | apply iter_exec_nil].
Qed.

Lemma strip_hex_split (n : nat) :
  forall s rest, strip_hex n s = Some rest ->
  exists digits, s = digits ++ rest /\ all_hex digits = true
                 /\ String.length digits = n.
Proof.
  induction n as [|n IH]; intros s rest.
  - intros [= <-]. exists "". repeat split.
  - simpl. destruct s as [|c s']; [discriminate|].
    destruct (is_hex_digit c) eqn:Hc; [|discriminate].
    intros H. destruct (IH _ _ H) as [digits [-> [Hall Hlen]]].
    exists (String c digits). simpl. rewrite Hc, Hall, Hlen. repeat split.
Qed.


Lemma exec_group_eol (b : bool) (s : string) :
  match Re.exec (Re.Cat (Re.Alt (Re.Times 6 hex_digit) (Re.Times 3 hex_digit))
                   Re.Eol) (b, s) with
  | [] => false
  | _ :: _ => true
  end = group_eol s.
Proof.
  unfold group_eol.
  change (Re.exec (Re.Cat (Re.Alt (Re.Times 6 hex_digit) (Re.Times 3 hex_digit))
                     Re.Eol) (b, s))
    with (flat_map (Re.exec Re.Eol)
            (Nat.iter 6 (flat_map (Re.exec hex_digit)) [(b, s)]
             ++ Nat.iter 3 (flat_map (Re.exec hex_digit)) [(b, s)])%list).
  rewrite !iter_exec_hex.
  destruct (strip_hex 6 s) as [r6|]; destruct (strip_hex 3 s) as [r3|]; simpl;
    repeat match goal with
           | |- context [Re.at_eol ?r] => destruct (Re.at_eol r); simpl
           end;
    reflexivity.
Qed.

Lemma matches_hex_pattern (s : string) :
  Re.matches hex_pattern s
  = match s with
    | String d rest => Ascii.eqb "#" d && group_eol rest
    | EmptyString => false
    end || group_eol s.
Proof.
  unfold Re.matches, hex_pattern.
  set (Y := Re.Cat (Re.Alt (Re.Times 6 hex_digit) (Re.Times 3 hex_digit))
              Re.Eol).
  change (Re.exec (Re.Cat Re.Bol (Re.Cat (Re.Opt (Re.Lit "#")) Y)) (true, s))
    with (flat_map (Re.exec Y) (Re.exec (Re.Lit "#") (true, s) ++ [(true, s)])
          ++ [])%list.
  rewrite app_nil_r, flat_map_app.
  change (flat_map (Re.exec Y) [(true, s)]) with (Re.exec Y (true, s) ++ [])%list.
  rewrite app_nil_r.
  pose proof (exec_group_eol true s) as Hs. fold Y in Hs.
  destruct s as [|d rest].
  - simpl. exact Hs.
  - change (Re.exec (Re.Lit "#") (true, String d rest))
      with (if Ascii.eqb "#" d then [(false, rest)] else []).
    destruct (Ascii.eqb "#" d).
    + change (flat_map (Re.exec Y) [(false, rest)])
        with (Re.exec Y (false, rest) ++ [])%list.
      rewrite app_nil_r.
      pose proof (exec_group_eol false rest) as Hr. fold Y in Hr.
      rewrite <- Hr, <- Hs.
      destruct (Re.exec Y (false, rest)); reflexivity.
    + simpl. exact Hs.
Qed.

Lemma at_eol_cases (r : string) :
  Re.at_eol r = true -> r = "" \/ r = String Re.newline "".
Proof.
  destruct r as [|c [|c' r']]; simpl; intros H; try discriminate.
  - left. reflexivity.
  - right. apply Ascii.eqb_eq in H. subst c. reflexivity.
Qed.

Lemma append_empty (s : string) : s ++ "" = s.
Proof. induction s as [|c s IH]; simpl; [|rewrite IH]; reflexivity. Qed.

Lemma group_eol_shape (t : string) :
  group_eol t = true ->
  exists digits,
    is_hex_color (String "#" digits) = true
    /\ (t = digits \/ t = digits ++ String Re.newline "").
Proof.
  unfold group_eol. intros H. apply orb_true_iff in H.
  assert (Hn : exists n rest, (n = 6 \/ n = 3)%nat
                 /\ strip_hex n t = Some rest /\ Re.at_eol rest = true).
  { destruct H as [H|H].
    - destruct (strip_hex 6 t) as [rest|] eqn:E; [|discriminate].
      exists 6%nat, rest. auto.
    - destruct (strip_hex 3 t) as [rest|] eqn:E; [|discriminate].
      exists 3%nat, rest. auto. }
  destruct Hn as [n [rest [Hn [Hs He]]]].
  destruct (strip_hex_split _ _ _ Hs) as [digits [-> [Hall Hlen]]].
  exists digits. split.
  - simpl. rewrite Hall, Hlen. destruct Hn as [-> | ->]; reflexivity.
  - destruct (at_eol_cases _ He) as [-> | ->].
    + left. apply append_empty.
    + right. reflexivity.
Qed.

Lemma group_eol_starts_with_digit (c : ascii) (rest : string) :
  group_eol (String c rest) = true -> is_hex_digit c = true.
Proof.
  unfold group_eol. simpl.
  destruct (is_hex_digit c); [reflexivity|]. discriminate.
Qed.

Lemma startswith_hash (d : ascii) (rest : string) :
  PyStr.startswith (String d rest) "#" = Ascii.eqb "#" d.
Proof.
  unfold PyStr.startswith.
  change (prefix "#" (String d rest))
    with (if ascii_dec "#" d then prefix "" rest else false).
  destruct (ascii_dec "#" d) as [E|E].
  - subst d. destruct rest; reflexivity.
  - symmetry. apply Ascii.eqb_neq. exact E.
Qed.

Lemma validate_hex_color_cases (color : string) :
  is_hex_color (validate_hex_color color) = true
  \/ exists t, validate_hex_color color = t ++ String Re.newline ""
               /\ is_hex_color t = true.
Proof.
  unfold validate_hex_color. rewrite matches_hex_pattern.
  destruct color as [|d rest].
  - left. reflexivity.
  - destruct (Ascii.eqb "#" d) eqn:Ed.
    + apply Ascii.eqb_eq in Ed. subst d.
      replace (group_eol (String "#" rest)) with false
        by (symmetry; unfold group_eol; reflexivity).
      rewrite orb_false_r. change (true && group_eol rest) with (group_eol rest).
      destruct (group_eol rest) eqn:Hg; [|left; reflexivity].
      change (negb true) with false. cbv iota.
      rewrite startswith_hash. change (Ascii.eqb "#" "#") with true.
      change (negb true) with false. cbv iota.
      destruct (group_eol_shape _ Hg) as [digits [Hc [-> | ->]]].
      * left. exact Hc.
      * right. exists (String "#" digits). split; [reflexivity | exact Hc].
    + change (false && group_eol rest) with false.
      change (false || group_eol (String d rest))
        with (group_eol (String d rest)).
      destruct (group_eol (String d rest)) eqn:Hg; [|left; reflexivity].
      change (negb true) with false. cbv iota.
      rewrite startswith_hash, Ed.
      change (negb false) with true. cbv iota.
      destruct (group_eol_shape _ Hg) as [digits [Hc [E | E]]]; rewrite E.
      * left. exact Hc.
      * right. exists (String "#" digits). split; [reflexivity | exact Hc].
Qed.

(** Whatever the input, the validator returns [#] followed by 3 or 6
    hexadecimal digits, possibly followed by one newline. *)
Lemma validate_hex_color_shape (color : string) :
  is_hex_color (validate_hex_color color) = true
  \/ exists t, validate_hex_color color = t ++ String Re.newline ""
               /\ is_hex_color t = true.
Proof. exact (validate_hex_color_cases color). Qed.

End HexFacts.

(** C10: the validator lets a trailing newline through.  ["#FFF\n"]
    matches the pattern, because [$] also holds just before a final
    newline, and is returned as it is: five characters, not [#] followed
    by 3 or 6 hexadecimal digits. *)
Theorem validate_hex_color_keeps_trailing_newline :
  let color := String "#" (String "F" (String "F" (String "F"
                 (String Re.newline EmptyString)))) in
  Re.matches hex_pattern color = true
  /\ validate_hex_color color = color
  /\ is_hex_color (validate_hex_color color) = false.
Proof. vm_compute. repeat split. Qed.

(* ------------------------------------------------------------------ *)
(** ** Further properties of the collision detector *)

Section CollisionProperties.
Local Open Scope Q_scope.



Lemma is_collision_exists (x y w h : Q) (existing : DataFrame) :
  is_collision x y w h existing = true
  <-> exists e, In e existing
        /\ axis_overlap x w (item_x e) (item_width e)
        /\ axis_overlap y h (item_y e) (item_height e).
Proof.
  unfold is_collision. rewrite existsb_exists.
  split; intros [e [Hin H]]; exists e; split; trivial.
  - apply andb_true_iff in H. destruct H as [Hx Hy].
    split; [apply axis_test_spec in Hx | apply axis_test_spec in Hy]; assumption.
  - destruct H as [Hx Hy].
    apply andb_true_iff; split; apply axis_test_spec; assumption.
Qed.



(** Rows only add collisions, and their order does not matter: a
    collision with a snapshot is a collision with every snapshot that
    holds the same rows and possibly more. *)
Theorem is_collision_monotone (x y w h : Q) (existing larger : DataFrame) :
  incl existing larger ->
  is_collision x y w h existing = true ->
  is_collision x y w h larger = true.
Proof.
  intros Hincl H. apply is_collision_exists in H.
  destruct H as [e [Hin Hov]].
  apply is_collision_exists. exists e. split; [apply Hincl; exact Hin | exact Hov].
Qed.

Lemma is_collision_monotone_witness :
  is_collision 0 0 300 300 [mkItem 900 900 10 10; mkItem 0 0 300 300] = true.
Proof.
  apply (is_collision_monotone 0 0 300 300 [mkItem 0 0 300 300]).
  - intros e [<- | []]. right. left. reflexivity.
  - reflexivity.
Defined.

End CollisionProperties.

(* ------------------------------------------------------------------ *)
(** ** Further properties of the spiral search *)

Section SearchProperties.

Variables (width height : Z) (existing_items : DataFrame).
Variables (initial_step increase_step_interval : Z).

Local Abbreviation body := (loop_body initial_step increase_step_interval).
Local Abbreviation loop_with :=
  (while_loop width height existing_items initial_step).
Local Abbreviation free_at :=
  (fun p => collides_at width height existing_items p = false).

Lemma while_loop_fuel_le (n : Z) (fuel fuel' : nat) (s : State) (r : Search) :
  loop_with n increase_step_interval fuel s = Some r ->
  (fuel <= fuel')%nat ->
  loop_with n increase_step_interval fuel' s = Some r.
Proof.
  intros H Hle. induction Hle as [|m Hle IH]; [exact H|].
  apply while_loop_more_fuel. exact IH.
Qed.

Lemma while_loop_before_last_collide (n : Z) (fuel : nat) :
  forall s r,
  loop_with n increase_step_interval fuel s = Some r ->
  forall p, In p (removelast (visited r)) ->
  collides_at width height existing_items p = true.
Proof.
  induction fuel as [|fuel IH]; intros s r; [discriminate|]. simpl.
  destruct (loop_condition width height existing_items n s) eqn:Hc.
  - destruct (body s) as [s'|e] eqn:Hb.
    + destruct (loop_with n increase_step_interval fuel s') as [r'|] eqn:Hr;
        [|discriminate].
      intros [= <-] p. simpl.
      destruct (while_loop_head _ _ _ _ _ _ _ _ _ Hr) as [rest Hv].
      rewrite Hv. intros [<- | Hin].
      * unfold loop_condition in Hc. apply andb_true_iff in Hc. apply Hc.
      * apply (IH _ _ Hr). rewrite Hv. exact Hin.
    + intros [= <-] p []. 
  - intros [= <-] p [].
Qed.

(** A run that ended on a free position is not changed by a larger
    budget. *)
Lemma while_loop_larger_budget (n n' : Z) (fuel : nat) :
  n <= n' ->
  forall s r sf,
  loop_with n increase_step_interval fuel s = Some r ->
  final r = Ok sf -> free_at (position sf) ->
  loop_with n' increase_step_interval fuel s = Some r.
Proof.
  intros Hn.
  induction fuel as [|fuel IH]; intros s r sf; [discriminate|]. simpl.
  unfold loop_condition.
  destruct (collides_at width height existing_items (position s)) eqn:Hc;
    simpl.
  - destruct (attempts s <? n) eqn:Hlt.
    + replace (attempts s <? n') with true
        by (symmetry; apply Z.ltb_lt; apply Z.ltb_lt in Hlt; lia).
      destruct (body s) as [s'|e] eqn:Hb.
      * destruct (loop_with n increase_step_interval fuel s') as [r'|] eqn:Hr;
          [|discriminate].
        intros [= <-] Hf Hfree. simpl in Hf.
        rewrite (IH _ _ _ Hr Hf Hfree). reflexivity.
      * intros [= <-]. discriminate.
    + intros [= <-] [= <-] Hfree. congruence.
  - intros H _ _. exact H.
Qed.

Lemma loop_body_lattice (x y : Z) (s s' : State) :
  state_ok s ->
  (exists k, step s = k * initial_step) ->
  on_lattice initial_step x y (position s) ->
  body s = Ok s' ->
  (exists k, step s' = k * initial_step)
  /\ on_lattice initial_step x y (position s').
Proof.
  intros [Hd Hi] [k Hk] [a [b Hp]] Hb.
  injection Hp as Hx Hy.
  split.
  - destruct (loop_body_step _ _ _ _ Hb) as [Hst _]. rewrite Hst.
    destruct ((attempts s + 1) mod increase_step_interval =? 0).
    + exists (k + 1). lia.
    + exists k. exact Hk.
  - unfold loop_body, py_mod in Hb. rewrite Hd in Hb.
    destruct (increase_step_interval =? 0);
      [destruct (direction_index_cases _ Hi) as [E|[E|[E|E]]];
       rewrite E in Hb; discriminate Hb|].
    unfold on_lattice, position.
    destruct (direction_index_cases _ Hi) as [E|[E|[E|E]]]; rewrite E in Hb;
      simpl in Hb;
      destruct (steps_taken s + 1 =? steps_in_current_leg s);
      injection Hb as <-; simpl.
    all: first
      [ exists (a + k), b; f_equal; lia
      | exists a, (b + k); f_equal; lia
      | exists (a - k), b; f_equal; lia
      | exists a, (b - k); f_equal; lia ].
Qed.

Lemma while_loop_lattice (n : Z) (x y : Z) (fuel : nat) :
  increase_step_interval <> 0 ->
  forall s r,
  state_ok s ->
  (exists k, step s = k * initial_step) ->
  on_lattice initial_step x y (position s) ->
  loop_with n increase_step_interval fuel s = Some r ->
  forall p, In p (visited r) -> on_lattice initial_step x y p.
Proof.
  intros Hg.
  induction fuel as [|fuel IH]; intros s r Hok Hk Hl; [discriminate|]. simpl.
  destruct (loop_condition width height existing_items n s).
  - destruct (loop_body_ok initial_step increase_step_interval s Hg Hok)
      as [s' [Hb Hok']].
    rewrite Hb.
    destruct (loop_with n increase_step_interval fuel s') as [r'|] eqn:Hr;
      [|discriminate].
    intros [= <-] p. simpl. intros [<- | Hin]; [exact Hl|].
    destruct (loop_body_lattice x y s s' Hok Hk Hl Hb) as [Hk' Hl'].
    exact (IH _ _ Hok' Hk' Hl' Hr p Hin).
  - intros [= <-] p [<- | []]. exact Hl.
Qed.

End SearchProperties.

(** A silent search is a successful one: with a budget that is not
    negative and a non-zero interval, a call that printed nothing returns
    a position free of collision. *)
Theorem silent_search_returns_free_position
    (x y w h : Z) (ex : DataFrame) (s0 n g : Z) :
  0 <= n -> g <> 0 ->
  printed (find_free_position x y w h ex s0 n g) = [] ->
  exists p, returned (find_free_position x y w h ex s0 n g) = Ok p
            /\ collides_at w h ex p = false.
Proof.
  intros Hn Hg Hsilent.
  destruct (find_free_position_exit x y w h ex s0 n g Hg) as [p [Hr [_ Hp]]].
  exists p. split; [exact Hr|].
  destruct (collides_at w h ex p) eqn:Hc; [|reflexivity].
  rewrite (Hp eq_refl Hn) in Hsilent. discriminate Hsilent.
Qed.

Lemma silent_search_returns_free_position_witness :
  exists p,
    returned (find_free_position 0 0 300 300 [mkItem 0 0 300 300] 50 10000 100)
    = Ok p
    /\ collides_at 300 300 [mkItem 0 0 300 300] p = false.
Proof.
  apply (silent_search_returns_free_position
           0 0 300 300 [mkItem 0 0 300 300] 50 10000 100).
  - lia.
  - lia.
  - vm_compute. reflexivity.
Defined.

(** The search passes over no free position: every position it tested
    before the last one collides, whatever the parameters. *)
Theorem search_stops_at_first_free_position
    (x y w h : Z) (ex : DataFrame) (s0 n g : Z) (p : Z * Z) :
  In p (removelast (probed (find_free_position x y w h ex s0 n g))) ->
  collides_at w h ex p = true.
Proof.
  rewrite find_free_position_probed.
  apply (while_loop_before_last_collide w h ex s0 g n _ _ _
           (while_loop_search w h ex s0 n g x y)).
Qed.

Lemma search_stops_at_first_free_position_witness :
  collides_at 300 300 [mkItem 0 0 300 300] (50, 50) = true.
Proof.
  apply (search_stops_at_first_free_position
           0 0 300 300 [mkItem 0 0 300 300] 50 10000 100 (50, 50)).
  vm_compute. right. right. left. reflexivity.
Defined.

(** When the anchor is free, or the budget is zero or negative, the call
    tests the anchor only and returns it.  The message depends on the
    budget alone: it is printed exactly when [max_attempts] is 0, also
    for a free anchor. *)
Theorem anchor_returned_without_search
    (x y w h : Z) (ex : DataFrame) (s0 n g : Z) :
  collides_at w h ex (x, y) = false \/ n <= 0 ->
  let o := find_free_position x y w h ex s0 n g in
  returned o = Ok (x, y)
  /\ probed o = [(x, y)]
  /\ printed o = (if 0 =? n then [unable_message] else []).
Proof.
  intros H o. subst o.
  pose proof (while_loop_search w h ex s0 n g x y) as Hs.
  unfold search_fuel in Hs. simpl in Hs.
  replace (loop_condition w h ex n (initial_state s0 x y)) with false in Hs.
  - injection Hs as Hs.
    unfold find_free_position, find_free_position_from.
    rewrite <- Hs. simpl. repeat split.
  - unfold loop_condition. simpl.
    destruct H as [H | H].
    + unfold position. simpl. rewrite H. reflexivity.
    + replace (0 <? n) with false by (symmetry; apply Z.ltb_ge; exact H).
      rewrite andb_false_r. reflexivity.
Qed.

Lemma anchor_returned_without_search_witness :
  let o := find_free_position 500 0 300 300 [mkItem 0 0 300 300] 50 0 100 in
  returned o = Ok (500, 0)
  /\ probed o = [(500, 0)]
  /\ printed o = (if 0 =? 0 then [unable_message] else []).
Proof.
  apply (anchor_returned_without_search
           500 0 300 300 [mkItem 0 0 300 300] 50 0 100).
  left. reflexivity.
Defined.

(** With [increase_step_interval = 0] a search that has to move raises
    ZeroDivisionError on its first step: the anchor collides, the budget
    is positive, and [attempts % 0] is evaluated. *)
Theorem zero_interval_raises
    (x y w h : Z) (ex : DataFrame) (s0 n : Z) :
  collides_at w h ex (x, y) = true -> 0 < n ->
  let o := find_free_position x y w h ex s0 n 0 in
  returned o = Raise ZeroDivisionError
  /\ probed o = [(x, y)]
  /\ printed o = [].
Proof.
  intros Hc Hn o. subst o.
  pose proof (while_loop_search w h ex s0 n 0 x y) as Hs.
  unfold search_fuel in Hs. simpl in Hs.
  replace (loop_condition w h ex n (initial_state s0 x y)) with true in Hs.
  - injection Hs as Hs.
    unfold find_free_position, find_free_position_from.
    rewrite <- Hs. simpl. repeat split.
  - unfold loop_condition, position. simpl. rewrite Hc.
    symmetry. apply Z.ltb_lt. exact Hn.
Qed.

Lemma zero_interval_raises_witness :
  let o := find_free_position 0 0 300 300 [mkItem 0 0 300 300] 50 10 0 in
  returned o = Raise ZeroDivisionError
  /\ probed o = [(0, 0)]
  /\ printed o = [].
Proof.
  apply (zero_interval_raises 0 0 300 300 [mkItem 0 0 300 300] 50 10).
  - reflexivity.
  - lia.
Defined.

(** Every position the search tests lies on the lattice of the anchor:
    it differs from the anchor by a whole multiple of [initial_step] on
    each axis, step growth included. *)
Theorem probed_positions_on_lattice
    (x y w h : Z) (ex : DataFrame) (s0 n g : Z) (p : Z * Z) :
  g <> 0 ->
  In p (probed (find_free_position x y w h ex s0 n g)) ->
  exists a b, p = (x + a * s0, y + b * s0).
Proof.
  intros Hg. rewrite find_free_position_probed.
  apply (while_loop_lattice w h ex s0 g n x y (search_fuel n) Hg
           (initial_state s0 x y) (search w h ex s0 n g x y)
           (initial_state_ok s0 x y)).
  - exists 1. symmetry. apply Z.mul_1_l.
  - exists 0, 0. unfold position. cbn [initial_state pos_x pos_y].
    f_equal; lia.
  - apply while_loop_search.
Qed.

Lemma probed_positions_on_lattice_witness :
  exists a b, (50, 50) = (0 + a * 50, 0 + b * 50).
Proof.
  apply (probed_positions_on_lattice
           0 0 300 300 [mkItem 0 0 300 300] 50 10000 100 (50, 50)).
  - lia.
  - vm_compute. right. right. left. reflexivity.
Defined.

(** A larger budget does not move a position that was found: if the call
    returns a free position with budget [n], it returns the same position,
    after the same tests, with every budget [n' >= n]. *)
Theorem found_position_stable_under_budget
    (x y w h : Z) (ex : DataFrame) (s0 n n' g : Z) (p : Z * Z) :
  returned (find_free_position x y w h ex s0 n g) = Ok p ->
  collides_at w h ex p = false ->
  n <= n' ->
  returned (find_free_position x y w h ex s0 n' g) = Ok p
  /\ probed (find_free_position x y w h ex s0 n' g)
     = probed (find_free_position x y w h ex s0 n g).
Proof.
  intros Hr Hfree Hn.
  rewrite !find_free_position_probed.
  unfold find_free_position, find_free_position_from in Hr |- *.
  destruct (final (search w h ex s0 n g x y)) as [sf|e] eqn:Hf;
    [|discriminate].
  simpl in Hr. injection Hr as Hp.
  assert (Hrun : while_loop w h ex s0 n' g (search_fuel n') (initial_state s0 x y)
                 = Some (search w h ex s0 n g x y)).
  { apply (while_loop_fuel_le w h ex s0 g n' (search_fuel n)).
    - apply (while_loop_larger_budget w h ex s0 g n n' _ Hn _ _ sf).
      + apply while_loop_search.
      + exact Hf.
      + unfold position. rewrite Hp. exact Hfree.
    - unfold search_fuel. lia. }
  rewrite (while_loop_search w h ex s0 n' g x y) in Hrun.
  injection Hrun as ->. rewrite Hf. simpl. rewrite Hp. split; reflexivity.
Qed.

Lemma found_position_stable_under_budget_witness :
  returned (find_free_position 0 0 300 300 [mkItem 0 0 300 300] 50 10000 100)
  = Ok (-250, -350)
  /\ probed (find_free_position 0 0 300 300 [mkItem 0 0 300 300] 50 10000 100)
     = probed (find_free_position 0 0 300 300 [mkItem 0 0 300 300] 50 200 100).
Proof.
  apply (found_position_stable_under_budget
           0 0 300 300 [mkItem 0 0 300 300] 50 200 10000 100 (-250, -350)).
  - vm_compute. reflexivity.
  - reflexivity.
  - lia.
Defined.

(* ------------------------------------------------------------------ *)
(** ** Colours and titles *)

Section ColourProperties.
Local Open Scope string_scope.

Lemma str_in_iff (x : string) (l : list string) :
  str_in x l = true <-> In x l.
Proof.
  unfold str_in. rewrite existsb_exists. split.
  - intros [y [Hin Heq]]. apply String.eqb_eq in Heq. subst y. exact Hin.
  - intros Hin. exists x. split; [exact Hin | apply String.eqb_refl].
Qed.

Lemma validate_sticky_note_color_in (fillColor : string) :
  In (snd (validate_sticky_note_color fillColor)) allowed_colors.
Proof.
  unfold validate_sticky_note_color.
  destruct (str_in fillColor allowed_colors) eqn:Hin; cbn [negb snd].
  - apply str_in_iff. exact Hin.
  - apply str_in_iff. reflexivity.
Qed.

(** The sticky-note validator returns an allowed colour whatever it is
    given, keeps an allowed colour as it is without printing, and is
    idempotent. *)
Theorem validate_sticky_note_color_allowed (fillColor : string) :
  In (snd (validate_sticky_note_color fillColor)) allowed_colors
  /\ (In fillColor allowed_colors ->
      validate_sticky_note_color fillColor = ([], fillColor))
  /\ validate_sticky_note_color (snd (validate_sticky_note_color fillColor))
     = ([], snd (validate_sticky_note_color fillColor)).
Proof.
  unfold validate_sticky_note_color.
  destruct (str_in fillColor allowed_colors) eqn:Hin; cbn [negb snd].
  - split; [apply str_in_iff; exact Hin|].
    split; [reflexivity|]. rewrite Hin. reflexivity.
  - split; [apply str_in_iff; reflexivity|].
    split; [|reflexivity].
    intros H. apply str_in_iff in H. congruence.
Qed.

Lemma hex_digit_not_hash (c : ascii) :
  is_hex_digit c = true -> Ascii.eqb "#" c = false.
Proof.
  intros H. destruct (Ascii.eqb "#" c) eqn:E; [|reflexivity].
  apply Ascii.eqb_eq in E. subst c. discriminate H.
Qed.

Lemma strip_hex_digits (digits rest : string) :
  all_hex digits = true ->
  strip_hex (String.length digits) (digits ++ rest) = Some rest.
Proof.
  induction digits as [|c digits IH]; simpl; [reflexivity|].
  intros H. apply andb_true_iff in H. destruct H as [Hc Hd].
  rewrite Hc. apply IH. exact Hd.
Qed.

Lemma group_eol_digits (digits rest : string) :
  all_hex digits = true ->
  (String.length digits = 3 \/ String.length digits = 6)%nat ->
  Re.at_eol rest = true ->
  group_eol (digits ++ rest) = true.
Proof.
  intros Hall Hlen Heol. unfold group_eol.
  destruct Hlen as [H3 | H6].
  - apply orb_true_iff. right.
    pose proof (strip_hex_digits digits rest Hall) as Hs.
    rewrite H3 in Hs. rewrite Hs. exact Heol.
  - apply orb_true_iff. left.
    pose proof (strip_hex_digits digits rest Hall) as Hs.
    rewrite H6 in Hs. rewrite Hs. exact Heol.
Qed.

Lemma is_hex_color_inv (s : string) :
  is_hex_color s = true ->
  exists digits, s = String "#" digits /\ all_hex digits = true
    /\ (String.length digits = 3 \/ String.length digits = 6)%nat.
Proof.
  destruct s as [|c digits]; [discriminate|]. simpl.
  destruct (Ascii.eqb c "#") eqn:Ec.
  - apply Ascii.eqb_eq in Ec. subst c. intros H.
    apply andb_true_iff in H. destruct H as [Hall Hlen].
    exists digits. split; [reflexivity|]. split; [exact Hall|].
    apply orb_true_iff in Hlen.
    destruct Hlen as [H | H]; apply Nat.eqb_eq in H; auto.
  - intros H. exfalso.
    destruct c as [[] [] [] [] [] [] [] []]; try discriminate H.
    discriminate Ec.
Qed.

(** A string that is [#] and 3 or 6 digits, with or without a final
    newline, passes the validator unchanged. *)
Lemma validate_hex_color_fixed (digits rest : string) :
  all_hex digits = true ->
  (String.length digits = 3 \/ String.length digits = 6)%nat ->
  Re.at_eol rest = true ->
  validate_hex_color (String "#" (digits ++ rest)) = String "#" (digits ++ rest).
Proof.
  intros Hall Hlen Heol. unfold validate_hex_color.
  rewrite matches_hex_pattern, startswith_hash.
  change (Ascii.eqb "#" "#") with true.
  rewrite (group_eol_digits _ _ Hall Hlen Heol). reflexivity.
Qed.

Lemma validate_hex_color_bare (digits rest : string) :
  all_hex digits = true ->
  (String.length digits = 3 \/ String.length digits = 6)%nat ->
  Re.at_eol rest = true ->
  validate_hex_color (digits ++ rest) = String "#" (digits ++ rest).
Proof.
  intros Hall Hlen Heol. unfold validate_hex_color.
  rewrite matches_hex_pattern, (group_eol_digits _ _ Hall Hlen Heol).
  rewrite orb_true_r.
  destruct digits as [|c digits]; [simpl in Hlen; lia|].
  change ((String c digits ++ rest)) with (String c (digits ++ rest)).
  rewrite startswith_hash.
  simpl in Hall. apply andb_true_iff in Hall. destruct Hall as [Hc _].
  rewrite (hex_digit_not_hash c Hc). reflexivity.
Qed.

(** The validator accepts what the documentation calls a colour code: a
    string made of [#] and 3 or 6 hexadecimal digits is returned as it
    is, and the same digits without [#] are returned with [#] in front. *)
Theorem validate_hex_color_accepts (digits : string) :
  all_hex digits = true ->
  (String.length digits = 3 \/ String.length digits = 6)%nat ->
  validate_hex_color (String "#" digits) = String "#" digits
  /\ validate_hex_color digits = String "#" digits.
Proof.
  intros Hall Hlen.
  pose proof (validate_hex_color_fixed digits "" Hall Hlen eq_refl) as H1.
  pose proof (validate_hex_color_bare digits "" Hall Hlen eq_refl) as H2.
  rewrite append_empty in H1, H2. split; assumption.
Qed.

Lemma validate_hex_color_accepts_witness :
  validate_hex_color "#00c1D4" = "#00c1D4"
  /\ validate_hex_color "00c1D4" = "#00c1D4".
Proof.
  apply (validate_hex_color_accepts "00c1D4").
  - reflexivity.
  - right. reflexivity.
Defined.

(** Validating twice is validating once. *)
Theorem validate_hex_color_idempotent (color : string) :
  validate_hex_color (validate_hex_color color) = validate_hex_color color.
Proof.
  destruct (validate_hex_color_cases color) as [H | [t [Ht H]]].
  - destruct (is_hex_color_inv _ H) as [digits [E [Hall Hlen]]].
    rewrite E.
    pose proof (validate_hex_color_fixed digits "" Hall Hlen eq_refl) as H1.
    rewrite append_empty in H1. exact H1.
  - destruct (is_hex_color_inv _ H) as [digits [E [Hall Hlen]]].
    rewrite Ht, E.
    exact (validate_hex_color_fixed digits (String Re.newline "") Hall Hlen
             eq_refl).
Qed.

End ColourProperties.

Section TitleProperties.
Local Open Scope string_scope.
Local Open Scope Z_scope.

Lemma prefix_length (p : string) :
  forall s, String.prefix p s = true ->
  (String.length p <= String.length s)%nat.
Proof.
  induction p as [|a p IH]; intros s; [simpl; lia|].
  destruct s as [|b s]; simpl; [discriminate|].
  destruct (ascii_dec a b); [|discriminate].
  intros H. apply IH in H. lia.
Qed.

Lemma remove_from_unfold (old : string) (c : ascii) (s : string) :
  PyStr.remove_from old 0 (String c s)
  = if String.prefix old (String c s)
    then PyStr.remove_from old (Nat.pred (String.length old)) s
    else String c (PyStr.remove_from old 0 s).
Proof. reflexivity. Qed.

Lemma count_from_unfold (sub : string) (c : ascii) (s : string) :
  PyStr.count_from sub 0 (String c s)
  = if String.prefix sub (String c s)
    then 1 + PyStr.count_from sub (Nat.pred (String.length sub)) s
    else PyStr.count_from sub 0 s.
Proof. reflexivity. Qed.

(** What [replace] removes is what [count] counts: each occurrence
    accounts for the length of the pattern. *)
Lemma remove_count_length (old : string) :
  old <> "" ->
  forall s k, (k <= String.length s)%nat ->
  Z.of_nat (String.length (PyStr.remove_from old k s))
  + Z.of_nat (String.length old) * PyStr.count_from old k s
  = Z.of_nat (String.length s) - Z.of_nat k.
Proof.
  intros Hold.
  assert (Hpos : (0 < String.length old)%nat)
    by (destruct old; [congruence | simpl; lia]).
  induction s as [|c s IH]; intros k Hk.
  - simpl in *. assert (k = 0%nat) by lia. subst k. simpl. lia.
  - destruct k as [|k].
    + rewrite remove_from_unfold, count_from_unfold.
      destruct (String.prefix old (String c s)) eqn:Hp.
      * apply prefix_length in Hp.
        specialize (IH (Nat.pred (String.length old))).
        rewrite Z.mul_add_distr_l, Z.mul_1_r.
        change (String.length (String c s)) with (S (String.length s)) in *.
        set (rest := PyStr.count_from old (Nat.pred (String.length old)) s)
          in *.
        set (kept := PyStr.remove_from old (Nat.pred (String.length old)) s)
          in *.
        clearbody rest kept.
        destruct (String.length old) as [|m]; [lia|].
        change (Nat.pred (S m)) with m in IH.
        specialize (IH ltac:(lia)).
        set (P := Z.of_nat (S m) * rest) in *. clearbody P. lia.
      * specialize (IH 0%nat ltac:(lia)).
        cbn [String.length] in *. lia.
    + change (String.length (String c s)) with (S (String.length s)) in *.
      specialize (IH k ltac:(lia)).
      change (PyStr.remove_from old (S k) (String c s))
        with (PyStr.remove_from old k s).
      change (PyStr.count_from old (S k) (String c s))
        with (PyStr.count_from old k s).
      lia.
Qed.

Lemma count_from_nonneg (sub : string) :
  forall s k, 0 <= PyStr.count_from sub k s.
Proof.
  induction s as [|c s IH]; intros k; [simpl; lia|].
  destruct k as [|k]; [|apply IH].
  rewrite count_from_unfold.
  destruct (String.prefix sub (String c s)).
  - specialize (IH (Nat.pred (String.length sub))). lia.
  - apply IH.
Qed.

Lemma plain_title_no_break (s : string) :
  plain_title s = true ->
  PyStr.remove_from "<br>" 0 s = s /\ PyStr.count_from "<br>" 0 s = 0.
Proof.
  induction s as [|c s IH]; [split; reflexivity|].
  simpl plain_title. intros H. apply andb_true_iff in H.
  destruct H as [Hc Hs]. destruct (IH Hs) as [Hr Hn].
  rewrite remove_from_unfold, count_from_unfold.
  replace (String.prefix "<br>" (String c s)) with false.
  - rewrite Hr, Hn. split; reflexivity.
  - change (String.prefix "<br>" (String c s))
      with (if ascii_dec "<" c then String.prefix "br>" s else false).
    destruct (ascii_dec "<" c) as [E|E]; [|reflexivity].
    subst c. discriminate Hc.
Qed.

(** The adjustment never lowers the height, and adds at most 25 per 13
    characters of the title plus 5 per character. *)
Theorem adjust_card_height_bounds (title : string) (height : Z) :
  height <= adjust_card_height title height
  /\ adjust_card_height title height
     <= height + 25 * (PyStr.len title / 13) + 5 * PyStr.len title.
Proof.
  unfold adjust_card_height, PyStr.len, PyStr.remove, PyStr.count.
  pose proof (remove_count_length "<br>" ltac:(discriminate) title 0
                ltac:(lia)) as Hlen.
  pose proof (count_from_nonneg "<br>" title 0) as Hc.
  change (Z.of_nat (String.length "<br>")) with 4 in Hlen.
  set (L := Z.of_nat (String.length (PyStr.remove_from "<br>" 0 title))) in *.
  set (N := Z.of_nat (String.length title)) in *.
  set (C := PyStr.count_from "<br>" 0 title) in *.
  assert (HL : 0 <= L) by (subst L; lia).
  assert (HLN : L <= N) by lia.
  destruct (13 <? L) eqn:E.
  - apply Z.ltb_lt in E.
    assert (0 <= (L - 1) / 13) by (apply Z.div_pos; lia).
    assert ((L - 1) / 13 <= N / 13) by (apply Z.div_le_mono; lia).
    split; lia.
  - assert (0 <= N / 13) by (apply Z.div_pos; lia).
    split; lia.
Qed.

(** For a title without the character [<], only the length counts: the
    height is unchanged up to 13 characters, and grows by 25 for every 13
    characters that the title, less one character, holds. *)
Theorem adjust_card_height_plain_title (title : string) (height : Z) :
  plain_title title = true ->
  adjust_card_height title height
  = height + (if 13 <? PyStr.len title
              then ((PyStr.len title - 1) / 13) * 25 else 0)
  /\ (PyStr.len title <= 13 -> adjust_card_height title height = height).
Proof.
  intros Hp. destruct (plain_title_no_break title Hp) as [Hr Hn].
  unfold adjust_card_height, PyStr.remove, PyStr.count. rewrite Hr, Hn.
  split; [lia|].
  intros Hl. replace (13 <? PyStr.len title) with false; [lia|].
  symmetry. apply Z.ltb_ge. exact Hl.
Qed.

Lemma adjust_card_height_plain_title_witness :
  adjust_card_height "Placement engine notes" 300
  = 300 + (if 13 <? PyStr.len "Placement engine notes"
           then ((PyStr.len "Placement engine notes" - 1) / 13) * 25 else 0)
  /\ (PyStr.len "Placement engine notes" <= 13 ->
      adjust_card_height "Placement engine notes" 300 = 300).
Proof.
  apply (adjust_card_height_plain_title "Placement engine notes" 300).
  reflexivity.
Defined.

End TitleProperties.

(* ------------------------------------------------------------------ *)
(** ** Payloads and requests *)

Section PayloadProperties.
Local Open Scope string_scope.

Variables (board_id title : string) (description : json).
Variables (fillColor shape : string) (width height x y : Z).

Local Abbreviation build :=
  (fun element_type =>
     build_payload element_type board_id title description fillColor shape
       width height x y).

Lemma element_type_cases (element_type : string) :
  In element_type element_types ->
  element_type = "card" \/ element_type = "sticky_note"
  \/ element_type = "shape".
Proof.
  unfold element_types. simpl. intros [H | [H | [H | []]]]; auto.
Qed.

Lemma build_payload_known (element_type : string) :
  In element_type element_types ->
  exists payload,
    built_url (build element_type)
    = Some ("https://api.miro.com/v2/boards/" ++ board_id
            ++ endpoint element_type)
    /\ built_payload (build element_type) = Some payload
    /\ json_path ["position"; "x"] payload = Some (JInt x)
    /\ json_path ["position"; "y"] payload = Some (JInt y)
    /\ json_path ["geometry"; "height"] payload = Some (JInt height)
    /\ json_path ["geometry"; "width"] payload
       = (if String.eqb element_type "sticky_note" then None
          else Some (JInt width)).
Proof.
  intros H.
  destruct (element_type_cases _ H) as [-> | [-> | ->]].
  - eexists. repeat split.
  - unfold build_payload. simpl String.eqb. cbv iota.
    destruct (validate_sticky_note_color fillColor) as [lines c].
    eexists. repeat split.
  - eexists. repeat split.
Qed.

(** An unknown element type, and only that, gives [(None, None)]: the
    URL is missing exactly when the type is none of card, sticky_note and
    shape, and then there is no payload and the message is printed. *)
Theorem build_payload_unknown_type (element_type : string) :
  (built_url (build element_type) = None
   <-> ~ In element_type element_types)
  /\ (built_url (build element_type) = None ->
      built_payload (build element_type) = None
      /\ built_stdout (build element_type) = [invalid_type_message]).
Proof.
  unfold build_payload, element_types.
  destruct (String.eqb element_type "card") eqn:E1.
  { apply String.eqb_eq in E1. subst. simpl. split.
    - split; [discriminate|]. intros H. exfalso. apply H. auto.
    - discriminate. }
  destruct (String.eqb element_type "sticky_note") eqn:E2.
  { apply String.eqb_eq in E2. subst.
    destruct (validate_sticky_note_color fillColor) as [lines c]. simpl. split.
    - split; [discriminate|]. intros H. exfalso. apply H. auto.
    - discriminate. }
  destruct (String.eqb element_type "shape") eqn:E3.
  { apply String.eqb_eq in E3. subst. simpl. split.
    - split; [discriminate|]. intros H. exfalso. apply H. auto.
    - discriminate. }
  apply String.eqb_neq in E1, E2, E3. simpl. split.
  - split; [|reflexivity]. intros _ [H | [H | [H | []]]]; congruence.
  - intros _. split; reflexivity.
Qed.

(** The colour that reaches the payload has always passed a validator:
    for a card and a shape it has the shape the hex validator lets
    through, for a sticky note it is one of the allowed names. *)
Theorem build_payload_colour_validated :
  (exists c, option_map (json_path ["style"; "cardTheme"])
               (built_payload (build "card")) = Some (Some (JStr c))
             /\ validated_hex c)
  /\ (exists c, option_map (json_path ["style"; "fillColor"])
                  (built_payload (build "shape")) = Some (Some (JStr c))
                /\ validated_hex c)
  /\ (exists c, option_map (json_path ["style"; "fillColor"])
                  (built_payload (build "sticky_note")) = Some (Some (JStr c))
                /\ In c allowed_colors).
Proof.
  split; [|split].
  - exists (validate_hex_color fillColor).
    split; [reflexivity | apply validate_hex_color_cases].
  - exists (validate_hex_color fillColor).
    split; [reflexivity | apply validate_hex_color_cases].
  - exists (snd (validate_sticky_note_color fillColor)).
    split; [|apply validate_sticky_note_color_in].
    unfold build_payload. simpl String.eqb. cbv iota.
    destruct (validate_sticky_note_color fillColor) as [lines c]. reflexivity.
Qed.

(** For each known type the payload carries the position and the height
    it was given; the width is carried for a card and a shape, and is
    absent from the payload of a sticky note. *)
Theorem build_payload_geometry (element_type : string) (payload : json) :
  built_payload (build element_type) = Some payload ->
  json_path ["position"; "x"] payload = Some (JInt x)
  /\ json_path ["position"; "y"] payload = Some (JInt y)
  /\ json_path ["geometry"; "height"] payload = Some (JInt height)
  /\ json_path ["geometry"; "width"] payload
     = (if String.eqb element_type "sticky_note" then None
        else Some (JInt width)).
Proof.
  intros Hp.
  assert (Hk : In element_type element_types).
  { revert Hp. unfold build_payload, element_types.
    destruct (String.eqb element_type "card") eqn:E1;
      [apply String.eqb_eq in E1; subst; simpl; auto|].
    destruct (String.eqb element_type "sticky_note") eqn:E2;
      [apply String.eqb_eq in E2; subst; simpl; auto|].
    destruct (String.eqb element_type "shape") eqn:E3;
      [apply String.eqb_eq in E3; subst; simpl; auto|].
    discriminate. }
  destruct (build_payload_known element_type Hk)
    as [p [_ [Hp' [Hx [Hy [Hh Hw]]]]]].
  rewrite Hp in Hp'. injection Hp' as <-. auto.
Qed.

End PayloadProperties.

Lemma build_payload_geometry_witness :
  let payload :=
    JDict [("data", JDict [("content", JStr "Note")]);
           ("style", JDict [("fillColor", JStr "yellow")]);
           ("position", JDict [("x", JInt 10); ("y", JInt (-20))]);
           ("geometry", JDict [("height", JInt 300)])]%string in
  json_path ["position"; "x"]%string payload = Some (JInt 10)
  /\ json_path ["position"; "y"]%string payload = Some (JInt (-20))
  /\ json_path ["geometry"; "height"]%string payload = Some (JInt 300)
  /\ json_path ["geometry"; "width"]%string payload
     = (if String.eqb "sticky_note" "sticky_note" then None
        else Some (JInt 256)).
Proof.
  apply (build_payload_geometry "B1" "Note" JNone "yellow" "rectangle"
           256 300 10 (-20) "sticky_note").
  reflexivity.
Defined.

Section RequestProperties.
Local Open Scope string_scope.
Local Open Scope Z_scope.

Variable http_post : string -> json -> Response.
Variables (board_id title : string) (description : json).
Variables (fillColor shape : string) (width height x y : Z).

Lemma build_payload_unknown (element_type : string) :
  ~ In element_type element_types ->
  build_payload element_type board_id title description fillColor shape
    width height x y
  = {| built_stdout := [invalid_type_message];
       built_url := None;
       built_payload := None |}.
Proof.
  intros Hn. unfold build_payload, element_types in *.
  destruct (String.eqb element_type "card") eqn:E1;
    [apply String.eqb_eq in E1; subst; exfalso; apply Hn; simpl; auto|].
  destruct (String.eqb element_type "sticky_note") eqn:E2;
    [apply String.eqb_eq in E2; subst; exfalso; apply Hn; simpl; auto|].
  destruct (String.eqb element_type "shape") eqn:E3;
    [apply String.eqb_eq in E3; subst; exfalso; apply Hn; simpl; auto|].
  reflexivity.
Qed.

(** From line 122 on, with an element type that is none of card,
    sticky_note and shape, [create_miro_element] sends no request and
    returns [None]; the invalid-type message is all it prints. *)
Theorem request_unknown_type (element_type : string) :
  ~ In element_type element_types ->
  let r := create_miro_element_request http_post element_type board_id title
             description fillColor shape width height x y in
  sent_requests r = []
  /\ sent_value r = Ok JNone
  /\ sent_stdout r = [invalid_type_message].
Proof.
  intros Hn r. subst r. unfold create_miro_element_request.
  rewrite (build_payload_unknown _ Hn). simpl. repeat split.
Qed.

(** From line 122 on, with a known element type, [create_miro_element]
    sends exactly one request, to the endpoint of that type on the board;
    the payload carries the position and the height it has at that line;
    the value is the response's JSON when the status is 201 and [None]
    otherwise. *)
Theorem request_known_type (element_type : string) :
  In element_type element_types ->
  let r := create_miro_element_request http_post element_type board_id title
             description fillColor shape width height x y in
  let url := "https://api.miro.com/v2/boards/" ++ board_id
             ++ endpoint element_type in
  exists payload,
    sent_requests r = [(url, payload)]
    /\ json_path ["position"; "x"] payload = Some (JInt x)
    /\ json_path ["position"; "y"] payload = Some (JInt y)
    /\ json_path ["geometry"; "height"] payload = Some (JInt height)
    /\ sent_value r
       = Ok (if status_code (http_post url payload) =? 201
             then response_json (http_post url payload) else JNone).
Proof.
  intros Hk r url.
  destruct (build_payload_known board_id title description fillColor shape
              width height x y element_type Hk)
    as [payload [Hu [Hp [Hx [Hy [Hh _]]]]]].
  exists payload.
  subst r. unfold create_miro_element_request. rewrite Hu, Hp.
  fold url.
  assert (He : String.eqb url "" = false) by reflexivity.
  rewrite He. cbn [negb]. unfold send_request.
  destruct (status_code (http_post url payload) =? 201); simpl;
    repeat split; assumption.
Qed.

End RequestProperties.

Lemma request_unknown_type_witness :
  let post := fun (_ : string) (_ : json) => mkResponse 201 "" JNone in
  let r := create_miro_element_request post "Card" "B1" "Titel" JNone "red"
             "rectangle" 300 300 0 0 in
  sent_requests r = []
  /\ sent_value r = Ok JNone
  /\ sent_stdout r = [invalid_type_message].
Proof.
  apply (request_unknown_type
           (fun _ _ => mkResponse 201 "" JNone)
           "B1" "Titel" JNone "red" "rectangle" 300 300 0 0 "Card").
  unfold element_types. simpl. intros [H | [H | [H | []]]]; discriminate H.
Defined.

Lemma request_known_type_witness :
  let post := fun (_ : string) (_ : json) => mkResponse 400 "bad" JNone in
  let r := create_miro_element_request post "shape" "B1" "Titel" JNone "red"
             "rectangle" 300 300 (-250) (-350) in
  let url := ("https://api.miro.com/v2/boards/" ++ "B1"
              ++ endpoint "shape")%string in
  exists payload,
    sent_requests r = [(url, payload)]
    /\ json_path ["position"; "x"]%string payload = Some (JInt (-250))
    /\ json_path ["position"; "y"]%string payload = Some (JInt (-350))
    /\ json_path ["geometry"; "height"]%string payload = Some (JInt 300)
    /\ sent_value r
       = Ok (if status_code (post url payload) =? 201
             then response_json (post url payload) else JNone).
Proof.
  apply (request_known_type
           (fun _ _ => mkResponse 400 "bad" JNone)
           "B1" "Titel" JNone "red" "rectangle" 300 300 (-250) (-350) "shape").
  unfold element_types. simpl. auto.
Defined.

(* ------------------------------------------------------------------ *)
(** ** Fetching the items *)

Section RowProperties.
Local Open Scope string_scope.

Lemma row_of_item_cases (item : json) :
  row_of_item item
  = if item_ok item then Done (columns_of_item item) else Fail AttributeError.
Proof.
  destruct item as [| b | z | q | s | items | fields]; try reflexivity.
  unfold item_ok, nested_keys, forallb, dict_or_absent, row_of_item,
    columns_of_item, at_path, json_path, Py.get, and_then.
  destruct (assoc "data" fields) as [[| ? | ? | ? | ? | ? | d]|];
    try reflexivity;
  destruct (assoc "style" fields) as [[| ? | ? | ? | ? | ? | st]|];
    try reflexivity;
  destruct (assoc "geometry" fields) as [[| ? | ? | ? | ? | ? | g]|];
    try reflexivity;
  destruct (assoc "position" fields) as [[| ? | ? | ? | ? | ? | po]|];
    try reflexivity;
  destruct (assoc "createdBy" fields) as [[| ? | ? | ? | ? | ? | cb]|];
    try reflexivity;
  destruct (assoc "modifiedBy" fields) as [[| ? | ? | ? | ? | ? | mb]|];
    try reflexivity.
  all: cbn [andb assoc];
    repeat match goal with
           | |- context [assoc ?k ?l] => destruct (assoc k l)
           end; reflexivity.
Qed.

(** One item becomes one row exactly when it is a dict whose data,
    style, geometry, position, createdBy and modifiedBy entries are dicts
    or absent; the thirteen columns are then the values at their paths,
    with [None] (or the empty string for content, shape and fillColor)
    where a path is missing.  Any other item raises AttributeError. *)
Theorem row_of_item_columns (item : json) :
  row_of_item item
  = if item_ok item then Done (columns_of_item item) else Fail AttributeError.
Proof. exact (row_of_item_cases item). Qed.

Lemma rows_of_items_length (items : list json) :
  forall rows, rows_of_items items = Done rows ->
  List.length rows = List.length items.
Proof.
  induction items as [|item rest IH]; intros rows.
  - intros [= <-]. reflexivity.
  - simpl. destruct (row_of_item item) as [row|e]; [|discriminate]. simpl.
    destruct (rows_of_items rest) as [rows'|e]; [|discriminate]. simpl.
    intros [= <-]. simpl. rewrite (IH rows' eq_refl). reflexivity.
Qed.

(** The DataFrame has one row per item, in the order of the items, each
    read off its item; one item that is not well formed is enough to
    raise AttributeError for the whole list. *)
Theorem rows_of_items_all_or_nothing (items : list json) :
  rows_of_items items
  = if forallb item_ok items then Done (map columns_of_item items)
    else Fail AttributeError.
Proof.
  induction items as [|item rest IH]; [reflexivity|].
  simpl. rewrite row_of_item_cases, IH.
  destruct (item_ok item); [|reflexivity].
  destruct (forallb item_ok rest); reflexivity.
Qed.

End RowProperties.

Section FetchProperties.
Local Open Scope string_scope.

Variable http_get : string -> Z -> option json -> json.
Variables (board_id : string) (limit : Z).

Local Abbreviation fetch := (fetch_pages http_get board_id limit).
Local Abbreviation answer := (http_get (items_url board_id) limit).
Local Abbreviation chain := (follows http_get board_id limit).

Lemma fetch_pages_step (fuel : nat) (c : option json)
    (fields : list (string * json)) (page items : list json) :
  answer c = JDict fields ->
  assoc "data" fields = Some (JList page) ->
  fetch (S fuel) c items
  = if Py.truthy (cursor_of fields)
    then fetch fuel (Some (cursor_of fields)) (items ++ page)%list
    else Some (Done (items ++ page)%list).
Proof.
  intros Ha Hd. simpl. rewrite Ha. simpl. rewrite Hd. simpl.
  unfold cursor_of. reflexivity.
Qed.

Lemma fetch_pages_follows (c c' : option json) (acc : list json) (n : nat) :
  chain c acc n c' ->
  forall fuel items,
  fetch (n + fuel) c items = fetch fuel c' (items ++ acc)%list.
Proof.
  induction 1 as [c | c fields page rest n c' Ha Hd Ht _ IH];
    intros fuel items.
  - rewrite app_nil_r. reflexivity.
  - change (S n + fuel)%nat with (S (n + fuel)).
    rewrite (fetch_pages_step _ _ _ _ _ Ha Hd), Ht, IH, app_assoc.
    reflexivity.
Qed.

(** Pagination is complete: when the responses form a chain of [n] pages
    with true cursors followed by a page whose cursor is missing or false,
    [get_items] makes its rows from the items of all the pages, in order,
    provided each is well formed. *)
Theorem get_items_collects_all_pages
    (acc page : list json) (n fuel : nat) (c' : option json)
    (fields : list (string * json)) :
  chain None acc n c' ->
  answer c' = JDict fields ->
  assoc "data" fields = Some (JList page) ->
  Py.truthy (cursor_of fields) = false ->
  (n < fuel)%nat ->
  get_items http_get board_id limit fuel
  = Some (rows_of_items (acc ++ page)%list).
Proof.
  intros Hc Ha Hd Ht Hf. unfold get_items.
  replace fuel with (n + S (fuel - S n))%nat by lia.
  rewrite (fetch_pages_follows _ _ _ _ Hc).
  rewrite (fetch_pages_step _ _ _ _ _ Ha Hd), Ht. reflexivity.
Qed.

(** A response without the key "data" raises ValueError, also after
    pages that were read without trouble: what they held is lost. *)
Theorem get_items_missing_data
    (acc : list json) (n fuel : nat) (c' : option json)
    (fields : list (string * json)) :
  chain None acc n c' ->
  answer c' = JDict fields ->
  assoc "data" fields = None ->
  (n < fuel)%nat ->
  get_items http_get board_id limit fuel = Some (Fail ValueError).
Proof.
  intros Hc Ha Hd Hf. unfold get_items.
  replace fuel with (n + S (fuel - S n))%nat by lia.
  rewrite (fetch_pages_follows _ _ _ _ Hc).
  simpl. rewrite Ha. simpl. rewrite Hd. reflexivity.
Qed.

(** Nothing bounds the number of requests: against a remote end whose
    every response has a list of items and a true cursor, [get_items]
    does not return, however many requests it is allowed. *)
Theorem get_items_endless :
  (forall c, exists fields page,
      answer c = JDict fields
      /\ assoc "data" fields = Some (JList page)
      /\ Py.truthy (cursor_of fields) = true) ->
  forall fuel, get_items http_get board_id limit fuel = None.
Proof.
  intros Hall fuel. unfold get_items.
  assert (H : forall c items, fetch fuel c items = None).
  { induction fuel as [|fuel IH]; intros c items; [reflexivity|].
    destruct (Hall c) as [fields [page [Ha [Hd Ht]]]].
    rewrite (fetch_pages_step _ _ _ _ _ Ha Hd), Ht. apply IH. }
  rewrite H. reflexivity.
Qed.

End FetchProperties.

Lemma get_items_collects_all_pages_witness :
  let first := JDict [("id", JStr "a")]%string in
  let second := JDict [("id", JStr "b")]%string in
  let remote := fun (_ : string) (_ : Z) (cursor : option json) =>
    match cursor with
    | None => JDict [("data", JList [first]); ("cursor", JStr "next")]
    | Some _ => JDict [("data", JList [second])]
    end%string in
  get_items remote "B1" 50 2 = Some (rows_of_items ([first] ++ [second])).
Proof.
  intros first second remote.
  apply (get_items_collects_all_pages remote "B1" 50 [first] [second] 1 2
           (Some (JStr "next")) [("data", JList [second])]%string).
  - exact (follows_next remote "B1" 50 None
             [("data", JList [first]); ("cursor", JStr "next")]%string
             [first] [] 0 (Some (JStr "next"))
             eq_refl eq_refl eq_refl
             (follows_here remote "B1" 50 (Some (JStr "next")))).
  - reflexivity.
  - reflexivity.
  - reflexivity.
  - lia.
Defined.

Lemma get_items_missing_data_witness :
  let first := JDict [("id", JStr "a")]%string in
  let remote := fun (_ : string) (_ : Z) (cursor : option json) =>
    match cursor with
    | None => JDict [("data", JList [first]); ("cursor", JStr "next")]
    | Some _ => JDict [("message", JStr "Token expired")]
    end%string in
  get_items remote "B1" 50 2 = Some (Fail ValueError).
Proof.
  intros first remote.
  apply (get_items_missing_data remote "B1" 50 [first] 1 2
           (Some (JStr "next")) [("message", JStr "Token expired")]%string).
  - exact (follows_next remote "B1" 50 None
             [("data", JList [first]); ("cursor", JStr "next")]%string
             [first] [] 0 (Some (JStr "next"))
             eq_refl eq_refl eq_refl
             (follows_here remote "B1" 50 (Some (JStr "next")))).
  - reflexivity.
  - reflexivity.
  - lia.
Defined.

Lemma get_items_endless_witness :
  let remote := fun (_ : string) (_ : Z) (_ : option json) =>
    JDict [("data", JList []); ("cursor", JStr "again")]%string in
  get_items remote "B1" 50 1000 = None.
Proof.
  intros remote.
  apply (get_items_endless remote "B1" 50).
  intros c. exists [("data", JList []); ("cursor", JStr "again")]%string, [].
  repeat split.
Defined.

(* ------------------------------------------------------------------ *)
(** ** The collision detector in binary64 *)

Section Binary64Facts.

Lemma SFcompare_antisym (a b : spec_float) :
  SFcompare b a = option_map CompOpp (SFcompare a b).
Proof.
  destruct a as [sa | sa | | sa ma ea]; destruct b as [sb | sb | | sb mb eb];
    simpl; try reflexivity;
    try (destruct sa; reflexivity); try (destruct sb; reflexivity);
    try (destruct sa; destruct sb; reflexivity).
  assert (Hm : Pos.compare_cont Eq mb ma
               = CompOpp (Pos.compare_cont Eq ma mb))
    by (symmetry; apply (Pos.compare_cont_antisym ma mb Eq)).
  destruct sa; destruct sb; simpl; try reflexivity;
    rewrite (Z.compare_antisym ea eb), Hm;
    destruct (ea ?= eb)%Z; simpl; try reflexivity;
    destruct (Pos.compare_cont Eq ma mb); reflexivity.
Qed.

Lemma ge_le (a b : F64.f64) : F64.ge a b = F64.le b a.
Proof.
  unfold F64.ge, F64.le. rewrite (SFcompare_antisym a b).
  destruct (SFcompare a b) as [[ | | ]|]; reflexivity.
Qed.

Lemma mul_comm (a b : F64.f64) : F64.mul a b = F64.mul b a.
Proof.
  unfold F64.mul, SFmul.
  destruct a as [sa | sa | | sa ma ea]; destruct b as [sb | sb | | sb mb eb];
    try reflexivity; try (rewrite (xorb_comm sa sb); reflexivity).
  rewrite (xorb_comm sa sb), (Pos.mul_comm ma mb), (Z.add_comm ea eb).
  reflexivity.
Qed.

Lemma axis_test_binary64 (c cs o os : F64.f64) :
  F64.ge
    (F64.add (F64.sub (F64.sub c (F64.div cs F64.two))
                (F64.mul cs F64.point_one))
       (F64.add cs (F64.mul F64.two (F64.mul cs F64.point_one))))
    (F64.sub o (F64.div os F64.two))
  && F64.le
       (F64.sub (F64.sub c (F64.div cs F64.two)) (F64.mul cs F64.point_one))
       (F64.add (F64.sub o (F64.div os F64.two)) os) = true
  <-> F64.axis_overlap c cs o os.
Proof.
  unfold F64.axis_overlap, F64.expanded_max, F64.expanded_min, F64.other_max,
    F64.other_min, F64.clearance.
  rewrite andb_true_iff, ge_le, (mul_comm F64.point_one cs).
  tauto.
Qed.

End Binary64Facts.

(** C1 (as the code has it): the collision test is the reference
    definition carried out in binary64, every operation rounded: the
    candidate alone is widened, by [0.1 * size] on each side, centres are
    turned into corners, an axis overlaps when
    [expanded_min <= other_max] and [expanded_max >= other_min], bounds
    included, and the candidate collides exactly when both axes overlap
    for at least one existing rectangle. *)
Theorem is_collision_binary64_iff_reference
    (x y w h : F64.f64) (existing : list F64.Rect) :
  F64.is_collision x y w h existing = true
  <-> F64.collides_reference x y w h existing.
Proof.
  unfold F64.is_collision, F64.collides_reference.
  rewrite existsb_exists.
  split; intros [e [Hin H]]; exists e; split; trivial.
  - apply andb_true_iff in H. destruct H as [Hx Hy].
    split; [apply axis_test_binary64 in Hx | apply axis_test_binary64 in Hy];
      assumption.
  - destruct H as [Hx Hy].
    apply andb_true_iff; split; apply axis_test_binary64; assumption.
Qed.

(** C1, as stated, fails: rounding moves the edges.  A 4 x 10 candidate
    at the origin and a 2 x 10 rectangle centred at -3.4 touch: in exact
    arithmetic, on the very values of these doubles, the reference holds
    (the candidate's left edge is -2.4, the rectangle's right edge
    -2.3999999999999999...).  The code rounds the first to
    -2.3999999999999999 and the second to -2.4000000000000004, and
    reports no collision. *)
Lemma touching_edges_missed_in_binary64 :
  let r := F64.mkRect (F64.tenths (-34)) (F64.of_Z 0) (F64.of_Z 2)
             (F64.of_Z 10) in
  F64.is_collision (F64.of_Z 0) (F64.of_Z 0) (F64.of_Z 4) (F64.of_Z 10) [r]
  = false
  /\ collides_reference
       (F64.to_Q (F64.of_Z 0)) (F64.to_Q (F64.of_Z 0))
       (F64.to_Q (F64.of_Z 4)) (F64.to_Q (F64.of_Z 10))
       [F64.exact_item r].
Proof.
  split; [vm_compute; reflexivity|].
  eexists. split; [left; reflexivity|].
  split; split; vm_compute; discriminate.
Qed.

(** The edges of that case, as the code computes them. *)
Example touching_edges_as_computed :
  F64.expanded_min (F64.of_Z 0) (F64.of_Z 4)
  = S754_finite true 5404319552844595 (-51)
  /\ F64.other_max (F64.tenths (-34)) (F64.of_Z 2)
     = S754_finite true 5404319552844596 (-51).
Proof. split; vm_compute; reflexivity. Qed.

(** With the sizes of the scenarios the edges are exact, and touching
    edges collide: the widened candidate ends at 180, where an obstacle
    begins. *)
Example touching_edges_collide :
  F64.is_collision (F64.of_Z 0) (F64.of_Z 0) (F64.of_Z 300) (F64.of_Z 300)
    [F64.mkRect (F64.of_Z 330) (F64.of_Z 0) (F64.of_Z 300) (F64.of_Z 300)]
  = true.
Proof. vm_compute. reflexivity. Qed.

Example separated_by_a_hair_is_free :
  F64.is_collision (F64.of_Z 0) (F64.of_Z 0) (F64.of_Z 300) (F64.of_Z 300)
    [F64.mkRect (F64.tenths 3301) (F64.of_Z 0) (F64.of_Z 300) (F64.of_Z 300)]
  = false.
Proof. vm_compute. reflexivity. Qed.

(** On the single-obstacle scenario the two embeddings of the detector
    give the same answer at every position the search tests. *)
Example scenario_probes_agree_in_binary64 :
  forallb
    (fun p =>
       Bool.eqb
         (F64.is_collision (F64.of_Z (fst p)) (F64.of_Z (snd p))
            (F64.of_Z 300) (F64.of_Z 300)
            [F64.mkRect (F64.of_Z 0) (F64.of_Z 0) (F64.of_Z 300)
               (F64.of_Z 300)])
         (collides_at 300 300 [mkItem 0 0 300 300] p))
    (probed (find_free_position 0 0 300 300 [mkItem 0 0 300 300]
               default_initial_step default_max_attempts
               default_increase_step_interval))
  = true.
Proof. vm_compute. reflexivity. Qed.
